(** * Military Monitor: the classification-and-refresh pipeline of monitor.py

    A shallow embedding of [src/monitor.py]: the type-code classifier of
    [FilterPanel], the filter set it owns, the fetch cycle of
    [MilitaryMonitor] with its error handling, the two derived views
    (table rows and offensive alerts), the system log and the timer that
    [on_mount] arms.

    Conventions.
    - A Python [str] is a [string]; [startswith] is [String.prefix].
    - A Python [float] is a [spec_float] of the binary64 format.
    - A JSON document as [response.json()] returns it is a [pyval].
    - Code that can raise returns a [result]; [try]/[except] is a match.
    - The interpreter's own string operations ([str.upper], [str.strip],
      [float] on a [str]) are the fields of the class [PyRuntime]; the
      theorems hold for every runtime, and [ascii_runtime] is the one used
      to run the model on concrete feeds.
    - Text produced by f-strings is kept as the sequence of its literal and
      formatted pieces ([text]).
    - A call that ends in [Static.update] is given twice: by the state it
      writes ([add_message], [update_alerts], [fetch_and_update], ...) and,
      with the answer of Textual's markup parser taken into account, by
      its [outcome] ([add_message_run], [update_alerts_run],
      [fetch_and_update_run], ...), which may be an exception that leaves
      the call. *)

From Stdlib Require Import ZArith String Ascii List Bool Lia.
From Stdlib Require Import Floats.SpecFloat.
From stdpp Require Import base option list gmap strings.

Set Warnings "-register-all".

Local Open Scope string_scope.
Local Open Scope list_scope.

(** ** Python values *)

(** The values [json.loads] produces. A [dict] keeps its items in insertion
    order and holds each key once; [assoc_get] returns the value of the
    first item with the key. *)
Inductive pyval : Type :=
| VNone
| VBool (b : bool)
| VInt (z : Z)
| VFloat (f : spec_float)
| VStr (s : string)
| VList (items : list pyval)
| VDict (items : list (string * pyval)).

Definition pyfloat : Type := spec_float.

Definition float_zero : pyfloat := S754_zero false.
Definition float_one : pyfloat := S754_finite false 4503599627370496 (-52).

Definition float_eqb (x y : pyfloat) : bool := SFeqb x y.
Definition float_ltb (x y : pyfloat) : bool := SFltb x y.

(** [bool(v)], the truth value that [or] and [not] test. *)
Definition truthy (v : pyval) : bool :=
  match v with
  | VNone => false
  | VBool b => b
  | VInt z => negb (Z.eqb z 0)
  | VFloat f => negb (float_eqb f float_zero)
  | VStr s => negb (String.eqb s "")
  | VList items => match items with [] => false | _ => true end
  | VDict items => match items with [] => false | _ => true end
  end.

(** [a or b] *)
Definition py_or (a b : pyval) : pyval := if truthy a then a else b.

Fixpoint assoc_get (key : string) (items : list (string * pyval)) : option pyval :=
  match items with
  | [] => None
  | (k, v) :: rest => if String.eqb k key then Some v else assoc_get key rest
  end.

(** ** Exceptions *)

Inductive pyexn : Type :=
| RequestError (detail : string)
    (* raised by requests.get, raise_for_status or response.json *)
| AttributeError (receiver : pyval) (attr : string)
| TypeError (operand : pyval)
| ValueError (operand : string)
| OverflowError
| MarkupError.
    (* raised by Static.update when Textual's markup parser refuses the content *)

Inductive result (A : Type) : Type :=
| Ok (a : A)
| Raise (e : pyexn).
Arguments Ok {A} a.
Arguments Raise {A} e.

#[global] Instance result_ret : MRet result := fun A a => Ok a.
#[global] Instance result_bind : MBind result := fun A B k r =>
  match r with
  | Ok a => k a
  | Raise e => Raise e
  end.

(** [for x in xs: acc.append(f(x))], stopping at the first exception. *)
Fixpoint for_each {A B : Type} (f : A -> result B) (xs : list A) : result (list B) :=
  match xs with
  | [] => Ok []
  | x :: rest =>
      y ← f x;
      ys ← for_each f rest;
      Ok (y :: ys)
  end.

(** [v.get(key)] and [v.get(key, default)]: only a dict has [get]. *)
Definition py_get (v : pyval) (key : string) (default : pyval) : result pyval :=
  match v with
  | VDict items =>
      Ok (match assoc_get key items with Some x => x | None => default end)
  | _ => Raise (AttributeError v "get")
  end.

(** The items a [for] loop visits: the elements of a list, the characters
    of a str, the keys of a dict; other JSON values are not iterable. *)
Definition py_iter (v : pyval) : result (list pyval) :=
  match v with
  | VList items => Ok items
  | VStr s => Ok (map (fun c => VStr (String c "")) (list_ascii_of_string s))
  | VDict items => Ok (map (fun kv => VStr (fst kv)) items)
  | _ => Raise (TypeError v)
  end.

(** ** float() *)

(** [float(n)] for an int: the nearest binary64, ties to even, and
    OverflowError when that is beyond the largest finite float. *)
Definition float_of_int (z : Z) : result pyfloat :=
  match binary_normalize 53 1024 z 0 false with
  | S754_infinity _ => Raise OverflowError
  | f => Ok f
  end.

(** ** The interpreter's string operations *)

Class PyRuntime : Type := {
  upper : string -> string;                    (* str.upper *)
  strip : string -> string;                    (* str.strip *)
  float_of_str : string -> option pyfloat      (* float(s); None: ValueError *)
}.

Section Pipeline.
Context `{PyRuntime}.

(** [float(v)] *)
Definition py_float (v : pyval) : result pyfloat :=
  match v with
  | VBool b => Ok (if b then float_one else float_zero)
  | VInt z => float_of_int z
  | VFloat f => Ok f
  | VStr s =>
      match float_of_str s with
      | Some f => Ok f
      | None => Raise (ValueError s)
      end
  | VNone | VList _ | VDict _ => Raise (TypeError v)
  end.

(** ** FilterPanel: the taxonomy and the classifier *)

Definition CATEGORIES : list (string * string) :=
  [ ("fighter", "Fighter Jets");
    ("bomber", "Bombers");
    ("tanker", "Tankers / Refuelers");
    ("transport", "Transport / Cargo");
    ("awacs", "AWACS / Reconnaissance");
    ("helicopter", "Helicopters");
    ("uav", "UAVs / Drones");
    ("special", "Special Operations");
    ("trainer", "Trainers");
    ("other", "Other / Unknown") ].

(** The dict literal, in declaration order (the order [items()] yields). *)
Definition TYPE_TO_CATEGORY : list (string * string) :=
  [ ("F14", "fighter"); ("F15", "fighter"); ("F16", "fighter"); ("F18", "fighter");
    ("F22", "fighter"); ("F35", "fighter"); ("FA18", "fighter"); ("F/A", "fighter");
    ("TYPH", "fighter"); ("EUFI", "fighter"); ("TORN", "fighter"); ("GRIP", "fighter");
    ("SU27", "fighter"); ("SU30", "fighter"); ("SU35", "fighter"); ("SU57", "fighter");
    ("MIG29", "fighter"); ("MIG31", "fighter"); ("MIG35", "fighter"); ("J20", "fighter");
    ("B1", "bomber"); ("B2", "bomber"); ("B52", "bomber");
    ("TU95", "bomber"); ("TU160", "bomber"); ("TU22", "bomber"); ("H6", "bomber");
    ("KC10", "tanker"); ("KC135", "tanker"); ("KC46", "tanker");
    ("K35R", "tanker"); ("A332", "tanker"); ("IL78", "tanker"); ("A310", "tanker");
    ("C130", "transport"); ("C17", "transport"); ("C5", "transport");
    ("A400", "transport"); ("IL76", "transport"); ("AN12", "transport"); ("AN22", "transport");
    ("AN124", "transport"); ("AN225", "transport");
    ("E3", "awacs"); ("E8", "awacs"); ("A50", "awacs"); ("KJ", "awacs");
    ("RJ35", "awacs"); ("RC135", "special"); ("U2", "special");
    ("H60", "helicopter"); ("AH64", "helicopter"); ("CH47", "helicopter");
    ("UH60", "helicopter"); ("KA52", "helicopter"); ("MI24", "helicopter");
    ("MI28", "helicopter"); ("MI8", "helicopter");
    ("RQ4", "uav"); ("MQ9", "uav"); ("GLOB", "uav"); ("REAP", "uav");
    ("TB2", "uav"); ("WING", "uav");
    ("T38", "trainer"); ("HAWK", "trainer"); ("L39", "trainer"); ("M346", "trainer");
    ("OC135", "special"); ("WC135", "special") ].

(** [s.startswith(prefix)] *)
Definition startswith (s prefix : string) : bool := String.prefix prefix s.

(** The loop over [TYPE_TO_CATEGORY.items()] with its early return. *)
Fixpoint scan_table (table : list (string * string)) (code : string) : option string :=
  match table with
  | [] => None
  | (prefix, cat) :: rest =>
      if startswith code prefix then Some cat else scan_table rest code
  end.

Definition map_type_to_category (icao_type : option string) : string :=
  match icao_type with
  | None => "other"
  | Some "" => "other"
  | Some s =>
      match scan_table TYPE_TO_CATEGORY (upper s) with
      | Some cat => cat
      | None => "other"
      end
  end.

(** ** MilitaryAircraft *)

(** The dataclass. [owner] is whatever truthy value the feed carried (the
    dataclass does not check its annotation); [aircraft_type] is a str in
    every record that gets built, because the classifier has called its
    [upper] method. *)
Record MilitaryAircraft : Type := {
  callsign : string;
  aircraft_type : string;
  owner : pyval;
  altitude : pyfloat;
  speed : pyfloat;
  heading : pyfloat;
  category : string
}.

(** ** Formatted text *)

(** An f-string is its literal parts and its replacement fields. *)
Inductive piece : Type :=
| Lit (s : string)              (* literal text *)
| Str (s : string)              (* {s} for a str *)
| Obj (v : pyval)               (* {v}: str(v) *)
| Count (n : nat)               (* {len(...)} *)
| Grouped0 (x : pyfloat)        (* {x:,.0f} *)
| Fixed0 (x : pyfloat)          (* {x:.0f} *)
| ExnText (e : pyexn).          (* {str(e)} *)

Definition text : Type := list piece.

(** ** DebugLog *)

Record DebugLog : Type := {
  max_lines : nat;
  lines : list text
}.

Definition DebugLog_init : DebugLog := {| max_lines := 1000; lines := [] |}.

(** [add_message] up to its last statement: the log after the append and
    the [pop(0)]; [timestamp] is what [datetime.now().strftime] returned.
    The last statement, [self.update(...)], hands the joined lines to the
    widget and can raise; the whole call is [add_message_run] below. *)
Definition add_message (timestamp : string) (message : text) (log : DebugLog) : DebugLog :=
  let log_line := [Lit "["; Str timestamp; Lit "] "] ++ message in
  let appended := lines log ++ [log_line] in
  {| max_lines := max_lines log;
     lines := if Nat.ltb (max_lines log) (length appended)
              then tail appended          (* lines.pop(0) *)
              else appended |}.

(** ** The filter set, a shared object *)

(** [active_filters] is a mutable [set] that the panel, the message it posts
    and the table refresh all reach through the same reference. Objects
    live in a store; a field holds the address. *)
Definition addr : Type := nat.
Definition store : Type := gmap addr (gset string).

Record FilterPanel : Type := { active_filters : addr }.

(** The message class: [self.filters = filters]. *)
Record FiltersChanged : Type := { filters : addr }.

Definition deref (objs : store) (a : addr) : gset string := objs !!! a.

(** [s.add(x)] and [s.discard(x)] on the set at an address. *)
Definition set_add (a : addr) (x : string) (objs : store) : store :=
  <[a := deref objs a ∪ {[x]}]> objs.
Definition set_discard (a : addr) (x : string) (objs : store) : store :=
  <[a := deref objs a ∖ {[x]}]> objs.

(** [FilterPanel.__init__]: a new set holding every key of [CATEGORIES]. *)
Definition FilterPanel_init (objs : store) : store * FilterPanel :=
  let a := fresh (dom objs) in
  (<[a := list_to_set (map fst CATEGORIES)]> objs, {| active_filters := a |}).

(** [s.replace(pattern, "")] for a non-empty pattern: the occurrences are
    removed left to right; [skip] counts the characters of the occurrence
    under the cursor that are still to be dropped. *)
Fixpoint remove_all (pattern : string) (skip : nat) (s : string) : string :=
  match s with
  | EmptyString => EmptyString
  | String c rest =>
      match skip with
      | S k => remove_all pattern k rest
      | O =>
          if String.prefix pattern s
          then remove_all pattern (String.length pattern - 1) rest
          else String c (remove_all pattern 0 rest)
      end
  end.

(** [on_checkbox_changed]; the event carries the checkbox id and its value.
    Returns the store after the update and the message posted. *)
Definition on_checkbox_changed (checkbox_id : string) (value : bool)
    (panel : FilterPanel) (objs : store) : store * FiltersChanged :=
  let cat_key := remove_all "filter_" 0 checkbox_id in
  let objs' := if value
               then set_add (active_filters panel) cat_key objs
               else set_discard (active_filters panel) cat_key objs in
  (objs', {| filters := active_filters panel |}).

(** ** Textual timers *)

(** What [MessagePump.set_timer] creates: a timer that calls back after
    [interval] seconds and again while fewer than [repeat] repetitions have
    run; [set_timer] passes [repeat = 0], one call and no repetition
    ([None] would be a timer without limit). *)
Inductive callback : Type := FetchAndUpdate.

Record Timer : Type := {
  started : Z;
  interval : Z;
  repeat : option nat;
  action : callback
}.

(** The timer's loop: call number [count + 1] happens at
    [started + (count + 1) * interval], for [count <= repeat]. *)
Definition timer_fires (t : Timer) (now : Z) : bool :=
  let elapsed := (now - started t)%Z in
  let calls := (elapsed / interval t)%Z in
  (0 <? interval t)%Z && (elapsed mod interval t =? 0)%Z && (1 <=? calls)%Z &&
  match repeat t with
  | None => true
  | Some r => (calls - 1 <=? Z.of_nat r)%Z
  end.

(** ** MilitaryMonitor *)

Record Row : Type := {
  cell_callsign : string;
  cell_type : string;
  cell_owner : pyval;
  cell_altitude : text;
  cell_speed : text;
  cell_heading : text
}.

Record MilitaryMonitor : Type := {
  aircraft_data : list MilitaryAircraft;
  debug_log : DebugLog;
  objs : store;
  filter_panel : FilterPanel;
  table : list Row;               (* the rows of the AircraftTable *)
  alerts_content : text;          (* the Static with id alerts-content *)
  timers : list Timer
}.

Definition set_aircraft_data (v : list MilitaryAircraft) (app : MilitaryMonitor) :=
  {| aircraft_data := v; debug_log := debug_log app; objs := objs app;
     filter_panel := filter_panel app; table := table app;
     alerts_content := alerts_content app; timers := timers app |}.
Definition set_debug_log (v : DebugLog) (app : MilitaryMonitor) :=
  {| aircraft_data := aircraft_data app; debug_log := v; objs := objs app;
     filter_panel := filter_panel app; table := table app;
     alerts_content := alerts_content app; timers := timers app |}.
Definition set_table (v : list Row) (app : MilitaryMonitor) :=
  {| aircraft_data := aircraft_data app; debug_log := debug_log app; objs := objs app;
     filter_panel := filter_panel app; table := v;
     alerts_content := alerts_content app; timers := timers app |}.
Definition set_alerts_content (v : text) (app : MilitaryMonitor) :=
  {| aircraft_data := aircraft_data app; debug_log := debug_log app; objs := objs app;
     filter_panel := filter_panel app; table := table app;
     alerts_content := v; timers := timers app |}.
Definition set_timers (v : list Timer) (app : MilitaryMonitor) :=
  {| aircraft_data := aircraft_data app; debug_log := debug_log app; objs := objs app;
     filter_panel := filter_panel app; table := table app;
     alerts_content := alerts_content app; timers := v |}.

Definition no_alerts : text := [Lit "No offensive aircraft currently detected."].

(** [__init__] and [compose]: an empty snapshot, an empty log, the panel
    with its own new filter set, the placeholder in the alerts area. *)
Definition MilitaryMonitor_init : MilitaryMonitor :=
  let '(store0, panel) := FilterPanel_init ∅ in
  {| aircraft_data := []; debug_log := DebugLog_init; objs := store0;
     filter_panel := panel; table := []; alerts_content := no_alerts;
     timers := [] |}.

Definition log_message (timestamp : string) (message : text) (app : MilitaryMonitor) :=
  set_debug_log (add_message timestamp message (debug_log app)) app.

(** The receiver of a str method: any other value has no such attribute. *)
Definition as_str (v : pyval) (attr : string) : result string :=
  match v with
  | VStr s => Ok s
  | _ => Raise (AttributeError v attr)
  end.

(** [alt == "ground"] *)
Definition is_ground (alt : pyval) : bool :=
  match alt with
  | VStr s => String.eqb s "ground"
  | _ => false
  end.

(** The body of the loop in [fetch_aircraft_data], for one feed entry.
    [icao_type] is truthy after [or "UNKNOWN"], so [map_type_to_category]
    goes on to [icao_type.upper()], which only a str has. *)
Definition build_aircraft (ac : pyval) : result MilitaryAircraft :=
  flight ← py_get ac "flight" VNone;
  flight_str ← as_str (py_or flight (VStr "NO CALL")) "strip";
  let callsign := strip flight_str in
  t ← py_get ac "t" VNone;
  let icao_type := py_or t (VStr "UNKNOWN") in
  o ← py_get ac "owner" VNone;
  let owner := py_or o (VStr "Unknown") in
  alt ← py_get ac "alt_baro" VNone;
  altitude ← (if is_ground alt then Ok float_zero else py_float (py_or alt (VInt 0)));
  gs ← py_get ac "gs" VNone;
  speed ← py_float (py_or gs (VInt 0));
  track ← py_get ac "track" VNone;
  heading ← py_float (py_or track (VInt 0));
  icao_str ← as_str icao_type "upper";
  let category := map_type_to_category (Some icao_str) in
  Ok {| callsign := callsign; aircraft_type := icao_str; owner := owner;
        altitude := altitude; speed := speed; heading := heading;
        category := category |}.

(** The [try] block after the response has been decoded: the new list and
    [len(ac_list)]. *)
Definition read_feed (data : pyval) : result (list MilitaryAircraft * nat) :=
  ac_list ← py_get data "ac" (VList []);
  entries ← py_iter ac_list;
  new_aircraft ← for_each build_aircraft entries;
  Ok (new_aircraft, length entries).

(** [fetch_aircraft_data]. [fetched] is the outcome of [requests.get],
    [raise_for_status] and [response.json]: the decoded document, or the
    exception one of them raised. *)
Definition fetch_aircraft_data (timestamp : string) (fetched : result pyval)
    (app : MilitaryMonitor) : MilitaryMonitor :=
  match fetched ≫= read_feed with
  | Ok (new_aircraft, count) =>
      log_message timestamp [Lit "Fetched "; Count count; Lit " military aircraft"]
        (set_aircraft_data new_aircraft app)
  | Raise e =>
      set_aircraft_data []
        (log_message timestamp [Lit "API Error: "; ExnText e] app)
  end.

(** [x or "NO CALL"] for a str [x] *)
Definition or_no_call (x : string) : string :=
  if String.eqb x "" then "NO CALL" else x.

(** The cells [add_row] receives for one aircraft. *)
Definition row_of (ac : MilitaryAircraft) : Row :=
  {| cell_callsign := or_no_call (callsign ac);
     cell_type := aircraft_type ac;
     cell_owner := owner ac;
     cell_altitude := if float_eqb (altitude ac) float_zero
                      then [Lit "Ground"] else [Grouped0 (altitude ac)];
     cell_speed := [Grouped0 (speed ac)];
     cell_heading := [Fixed0 (heading ac); Lit "°"] |}.

(** [[ac for ac in data if ac.category in active]] *)
Fixpoint filtered_by (active : gset string) (data : list MilitaryAircraft)
    : list MilitaryAircraft :=
  match data with
  | [] => []
  | ac :: rest =>
      if bool_decide (category ac ∈ active)
      then ac :: filtered_by active rest
      else filtered_by active rest
  end.

(** [update_aircraft_table]: clear the rows, add one per filtered aircraft. *)
Definition update_aircraft_table (timestamp : string) (app : MilitaryMonitor)
    : MilitaryMonitor :=
  let active := deref (objs app) (active_filters (filter_panel app)) in
  let filtered := filtered_by active (aircraft_data app) in
  let rows := fold_left (fun tbl ac => tbl ++ [row_of ac]) filtered [] in
  log_message timestamp [Lit "Displaying "; Count (length filtered); Lit " aircraft"]
    (set_table rows app).

Definition offensive_categories : gset string := {[ "fighter"; "bomber" ]}.

Definition alert_line (ac : MilitaryAircraft) : text :=
  [ Lit "• "; Str (or_no_call (callsign ac)); Lit " | "; Str (aircraft_type ac);
    Lit " | "; Obj (owner ac); Lit " | "; Grouped0 (altitude ac); Lit " ft | ";
    Grouped0 (speed ac); Lit " kts | "; Fixed0 (heading ac); Lit "°" ].

(** The loop of [update_alerts] that fills [alerts]. *)
Definition offensive_alerts (data : list MilitaryAircraft) : list text :=
  fold_left
    (fun alerts ac =>
       if bool_decide (category ac ∈ offensive_categories)
          && float_ltb float_zero (altitude ac)
       then alerts ++ [alert_line ac]
       else alerts)
    data [].

(** ["\n".join(alerts)] *)
Fixpoint join_lines (alerts : list text) : text :=
  match alerts with
  | [] => []
  | [line] => line
  | line :: rest => line ++ Lit (String "010" "") :: join_lines rest
  end.

(** [update_alerts] when the widget accepts the text: the alerts area shows
    the joined lines or the placeholder. [content.update(...)] can raise
    instead; the whole call is [update_alerts_run] below. *)
Definition update_alerts (app : MilitaryMonitor) : MilitaryMonitor :=
  let alerts := offensive_alerts (aircraft_data app) in
  set_alerts_content
    (match alerts with [] => no_alerts | _ => join_lines alerts end) app.

(** [fetch_and_update]; each [add_message] reads the clock once. *)
Definition fetch_and_update (t_fetch t_table t_done : string)
    (fetched : result pyval) (app : MilitaryMonitor) : MilitaryMonitor :=
  let app1 := fetch_aircraft_data t_fetch fetched app in
  let app2 := update_aircraft_table t_table app1 in
  let app3 := update_alerts app2 in
  log_message t_done [Lit "Data refreshed."] app3.

Definition on_filter_panel_filters_changed (t_event t_table : string)
    (event : FiltersChanged) (app : MilitaryMonitor) : MilitaryMonitor :=
  update_alerts
    (update_aircraft_table t_table
       (log_message t_event [Lit "Filters updated - reapplying"] app)).

Definition action_refresh_now (t_request t_fetch t_table t_done : string)
    (fetched : result pyval) (app : MilitaryMonitor) : MilitaryMonitor :=
  fetch_and_update t_fetch t_table t_done fetched
    (log_message t_request [Lit "Manual refresh requested"] app).

(** [self.set_timer(delay, callback)] at time [now]. *)
Definition set_timer (now delay : Z) (cb : callback) (app : MilitaryMonitor) :=
  set_timers
    (timers app ++ [{| started := now; interval := delay; repeat := Some 0%nat;
                       action := cb |}]) app.

(** [on_mount], run at time [now]. *)
Definition on_mount (now : Z) (t_start t_fetching t_fetch t_table t_done : string)
    (fetched : result pyval) (app : MilitaryMonitor) : MilitaryMonitor :=
  let app1 := log_message t_start [Lit "Military Monitor started"] app in
  let app2 := log_message t_fetching
                [Lit "Fetching live military aircraft data from ADSB.lol..."] app1 in
  let app3 := set_timer now 10 FetchAndUpdate app2 in
  fetch_and_update t_fetch t_table t_done fetched app3.

(** The app calls [fetch_and_update] at time [now] when it is the time of
    the direct call in [on_mount] or one of its timers fires. *)
Definition refresh_at (mounted : Z) (app : MilitaryMonitor) (now : Z) : bool :=
  (now =? mounted)%Z
  || existsb (fun t => match action t with FetchAndUpdate => timer_fires t now end)
       (timers app).

End Pipeline.

Arguments map_type_to_category : simpl never.

(** ** A runtime for ASCII text *)

(** [str.upper], [str.strip] and [float] as CPython computes them on ASCII
    strings. *)
Module AsciiText.

Definition code (c : ascii) : nat := nat_of_ascii c.

Definition upper_char (c : ascii) : ascii :=
  if Nat.leb 97 (code c) && Nat.leb (code c) 122
  then ascii_of_nat (code c - 32) else c.

Definition lower_char (c : ascii) : ascii :=
  if Nat.leb 65 (code c) && Nat.leb (code c) 90
  then ascii_of_nat (code c + 32) else c.

Fixpoint map_chars (f : ascii -> ascii) (s : string) : string :=
  match s with
  | EmptyString => EmptyString
  | String c rest => String (f c) (map_chars f rest)
  end.

Definition upper (s : string) : string := map_chars upper_char s.
Definition lower (s : string) : string := map_chars lower_char s.

(** [str.isspace] on one ASCII character: tab to carriage return, the four
    separators 28 to 31, and the space. *)
Definition is_space (c : ascii) : bool :=
  Nat.leb 9 (code c) && Nat.leb (code c) 13
  || Nat.leb 28 (code c) && Nat.leb (code c) 32.

Fixpoint lstrip (s : string) : string :=
  match s with
  | EmptyString => EmptyString
  | String c rest => if is_space c then lstrip rest else s
  end.

Definition strip (s : string) : string :=
  String.rev (lstrip (String.rev (lstrip s))).

Definition digit_of (c : ascii) : option Z :=
  if Nat.leb 48 (code c) && Nat.leb (code c) 57
  then Some (Z.of_nat (code c - 48)) else None.

Definition starts_with_digit (s : string) : bool :=
  match s with
  | String c _ => match digit_of c with Some _ => true | None => false end
  | EmptyString => false
  end.

(** Reads digits, with single underscores allowed between two digits, on
    top of the value [acc]; returns the value, the number of digits read
    and the unread rest. *)
Fixpoint read_digits (acc : Z) (count : nat) (s : string) : Z * nat * string :=
  match s with
  | EmptyString => (acc, count, s)
  | String c rest =>
      match digit_of c with
      | Some d => read_digits (10 * acc + d) (S count) rest
      | None =>
          if Ascii.eqb c "_" && Nat.ltb 0 count && starts_with_digit rest
          then read_digits acc count rest
          else (acc, count, s)
      end
  end.

Definition read_sign (s : string) : bool * string :=
  match s with
  | String "-" rest => (true, rest)
  | String "+" rest => (false, rest)
  | _ => (false, s)
  end.

(** The binary64 nearest to [m * 10^k], ties to even. *)
Definition decimal (negative : bool) (m k : Z) : pyfloat :=
  match m with
  | Zpos p =>
      if (0 <=? k)%Z
      then match (Zpos p * 10 ^ k)%Z with
           | Zpos q => binary_round 53 1024 negative q 0
           | _ => S754_nan
           end
      else let '(mz, ez, lz) :=
             SFdiv_core_binary 53 1024 (Zpos p) 0 (10 ^ (- k))%Z 0 in
           binary_round_aux 53 1024 negative mz ez lz
  | _ => S754_zero negative
  end.

(** [float(s)]: surrounding whitespace, a sign, then [inf], [infinity],
    [nan] in any case or a decimal number with optional fraction and
    exponent. *)
Definition float_of_str (s : string) : option pyfloat :=
  let '(negative, body) := read_sign (strip s) in
  let word := lower body in
  if String.eqb word "inf" || String.eqb word "infinity"
  then Some (S754_infinity negative)
  else if String.eqb word "nan" then Some S754_nan
  else
    let '(int_part, n_int, after_int) := read_digits 0 0 body in
    let '(mantissa, n_frac, after_frac) :=
      match after_int with
      | String "." rest => read_digits int_part 0 rest
      | _ => (int_part, 0%nat, after_int)
      end in
    if Nat.eqb (n_int + n_frac) 0 then None
    else
      match after_frac with
      | EmptyString => Some (decimal negative mantissa (- Z.of_nat n_frac))
      | String c rest =>
          if Ascii.eqb c "e" || Ascii.eqb c "E"
          then
            let '(exp_negative, digits) := read_sign rest in
            let '(exponent, n_exp, unread) := read_digits 0 0 digits in
            if Nat.eqb n_exp 0 || negb (String.eqb unread "")
            then None
            else Some (decimal negative mantissa
                         ((if exp_negative then - exponent else exponent)
                          - Z.of_nat n_frac))
          else None
      end.

End AsciiText.

Definition ascii_runtime : PyRuntime :=
  {| upper := AsciiText.upper;
     strip := AsciiText.strip;
     float_of_str := AsciiText.float_of_str |}.

(** ** Vocabulary of the statements *)

(** [p] is a literal prefix of [s]. *)
Definition is_prefix (p s : string) : Prop := exists rest, s = p +:+ rest.

(** Entry [i] of the table is the first whose prefix starts [code]. *)
Definition first_match (table : list (string * string)) (code : string)
    (i : nat) (cat : string) : Prop :=
  exists p, table !! i = Some (p, cat) /\ is_prefix p code /\
    forall j q c, j < i -> table !! j = Some (q, c) -> ~ is_prefix q code.

Definition no_match (table : list (string * string)) (code : string) : Prop :=
  forall j q c, table !! j = Some (q, c) -> ~ is_prefix q code.

(** Two prefixes that can both start one code: one starts the other.
    This test and [chain_free] are checks on the table used by the proofs. *)
Definition comparable (p q : string) : bool := String.prefix p q || String.prefix q p.

(** No key of the table lies between two others in a chain of prefixes
    read in declaration order. *)
Definition chain_free (keys : list string) : bool :=
  let idx := seq 0 (length keys) in
  let key i := nth i keys "" in
  forallb (fun k => forallb (fun i => forallb (fun j =>
    negb (Nat.ltb k i && Nat.ltb i j
          && comparable (key k) (key i) && comparable (key i) (key j)))
    idx) idx) idx.

(** What makes a fetch fail: the request (or the decoding of its body)
    raised; or the [try] block raised on the decoded document; in
    particular when some record carries an altitude that is a non-empty
    string other than "ground" which [float] rejects. *)
Inductive fetch_failure `{PyRuntime} : result pyval -> Prop :=
| request_failed (e : pyexn) :
    fetch_failure (Raise e)
| payload_malformed (data : pyval) (e : pyexn) :
    read_feed data = Raise e ->
    fetch_failure (Ok data)
| altitude_not_numeric (doc : list (string * pyval)) (entries : list pyval)
    (entry : list (string * pyval)) (s : string) :
    assoc_get "ac" doc = Some (VList entries) ->
    In (VDict entry) entries ->
    assoc_get "alt_baro" entry = Some (VStr s) ->
    s <> "" -> s <> "ground" -> float_of_str s = None ->
    fetch_failure (Ok (VDict doc)).

(** The alert condition as the specification words it: an offensive
    category and an altitude above zero. *)
Definition airborne_offensive (ac : MilitaryAircraft) : Prop :=
  (category ac = "fighter" \/ category ac = "bomber")
  /\ float_ltb float_zero (altitude ac) = true.

#[global] Instance airborne_offensive_dec (ac : MilitaryAircraft) :
  Decision (airborne_offensive ac).
Proof. unfold airborne_offensive. apply _. Defined.

(** The text shown in the alerts area for a list of alert lines. *)
Definition alerts_text (alerts : list text) : text :=
  match alerts with
  | [] => no_alerts
  | _ => join_lines alerts
  end.

(** The same application with another filter set behind its panel. *)
Definition with_filter_state (objs' : store) (panel' : FilterPanel)
    (app : MilitaryMonitor) : MilitaryMonitor :=
  {| aircraft_data := aircraft_data app; debug_log := debug_log app; objs := objs';
     filter_panel := panel'; table := table app;
     alerts_content := alerts_content app; timers := timers app |}.

(** The value of a key of a feed entry, [None] when absent: [ac.get(key)]. *)
Definition field (entry : list (string * pyval)) (key : string) : pyval :=
  match assoc_get key entry with
  | Some x => x
  | None => VNone
  end.

(** ** The rest of the application *)

(** *** FilterPanel.compose *)

(** The arguments [compose] gives a [Checkbox]. *)
Record Checkbox : Type := {
  cb_label : string;
  cb_value : bool;
  cb_id : string
}.

(** [range(start, stop, step)] for a positive step. *)
Definition py_range (start stop step : nat) : list nat :=
  map (fun k => start + k * step) (seq 0 ((stop - start + (step - 1)) / step)).

(** [Checkbox(label, value=True, id=f"filter_{key}")] *)
Definition checkbox_for (item : string * string) : Checkbox :=
  {| cb_label := snd item; cb_value := true; cb_id := "filter_" +:+ fst item |}.

(** The body of the loop of [compose] at index [i]: one [Horizontal] row
    with the checkbox of [items[i]] and, when [i + 1 < len(items)], that of
    [items[i + 1]]. The loop only visits indices below [len(items)], where
    [items[i]] exists. *)
Definition filter_row (items : list (string * string)) (i : nat) : list Checkbox :=
  match items !! i with
  | Some item =>
      checkbox_for item ::
        (if Nat.ltb (i + 1) (length items)
         then match items !! (i + 1) with
              | Some next => [checkbox_for next]
              | None => []
              end
         else [])
  | None => []
  end.

(** The rows [compose] yields for a list of items. *)
Definition compose_rows (items : list (string * string)) : list (list Checkbox) :=
  map (filter_row items) (py_range 0 (length items) 2).

(** [FilterPanel.compose]: the title label, then the rows. *)
Definition FilterPanel_compose : string * list (list Checkbox) :=
  ("FILTER BY AIRCRAFT TYPE", compose_rows CATEGORIES).

(** *** The log *)

(** The line [add_message] stores for a timestamp and a message. *)
Definition log_line (entry : string * text) : text :=
  [Lit "["; Str (fst entry); Lit "] "] ++ snd entry.

(** A run of [add_message] calls, oldest first. *)
Definition add_messages (entries : list (string * text)) (log : DebugLog) : DebugLog :=
  fold_left (fun l entry => add_message (fst entry) (snd entry) l) entries log.

(** *** The widgets *)

(** [Static.update(content)] hands its content to Textual's markup parser,
    which raises MarkupError on text it cannot parse (a closing tag such as
    [/b] while no tag is open, for one). [markup_ok content] is whether the
    parser accepts the content. *)
Class Textual : Type := {
  markup_ok : text -> bool
}.

(** How a call ends: it returns, or an exception leaves it. Either way the
    state is what the call has written until then. *)
Inductive outcome (S : Type) : Type :=
| Done (state : S)
| Raised (e : pyexn) (state : S).
Arguments Done {S} state.
Arguments Raised {S} e state.

(** One statement after another: the second runs when the first returns. *)
Definition and_then {S : Type} (first : outcome S) (next : S -> outcome S)
    : outcome S :=
  match first with
  | Done state => next state
  | Raised e state => Raised e state
  end.

Section Calls.
Context `{PyRuntime} `{Textual}.

(** [DebugLog.add_message], whole: the lines are updated, then
    [self.update("\n".join(self.lines))] is called on them. *)
Definition add_message_run (timestamp : string) (message : text) (log : DebugLog)
    : outcome DebugLog :=
  let log' := add_message timestamp message log in
  if markup_ok (join_lines (lines log'))
  then Done log'
  else Raised MarkupError log'.

(** [self.debug_log.add_message(...)] in a method of the application. *)
Definition log_message_run (timestamp : string) (message : text)
    (app : MilitaryMonitor) : outcome MilitaryMonitor :=
  match add_message_run timestamp message (debug_log app) with
  | Done log' => Done (set_debug_log log' app)
  | Raised e log' => Raised e (set_debug_log log' app)
  end.

(** [fetch_aircraft_data], whole. The [try] block ends by assigning the
    snapshot and logging the count; whatever it raises, the log call
    included, is caught, and the [except] block logs the error and only
    then clears the snapshot, so an exception of that second log call
    leaves the method before the clearing. [t_fetched] and [t_error] are
    the clock readings of the two log calls. *)
Definition fetch_aircraft_data_run (t_fetched t_error : string)
    (fetched : result pyval) (app : MilitaryMonitor) : outcome MilitaryMonitor :=
  let attempt :=
    match fetched ≫= read_feed with
    | Ok (new_aircraft, count) =>
        log_message_run t_fetched
          [Lit "Fetched "; Count count; Lit " military aircraft"]
          (set_aircraft_data new_aircraft app)
    | Raise e => Raised e app
    end in
  match attempt with
  | Done app' => Done app'
  | Raised e app' =>
      match log_message_run t_error [Lit "API Error: "; ExnText e] app' with
      | Done app'' => Done (set_aircraft_data [] app'')
      | Raised e' app'' => Raised e' app''
      end
  end.

(** [update_aircraft_table], whole: the rows, then the log call. *)
Definition update_aircraft_table_run (timestamp : string) (app : MilitaryMonitor)
    : outcome MilitaryMonitor :=
  let active := deref (objs app) (active_filters (filter_panel app)) in
  let filtered := filtered_by active (aircraft_data app) in
  let rows := fold_left (fun tbl ac => tbl ++ [row_of ac]) filtered [] in
  log_message_run timestamp
    [Lit "Displaying "; Count (length filtered); Lit " aircraft"]
    (set_table rows app).

(** [update_alerts], whole: [content.update(...)] shows the text or
    raises, and then the area keeps what it showed. *)
Definition update_alerts_run (app : MilitaryMonitor) : outcome MilitaryMonitor :=
  let content := alerts_text (offensive_alerts (aircraft_data app)) in
  if markup_ok content
  then Done (set_alerts_content content app)
  else Raised MarkupError app.

(** [fetch_and_update], whole: nothing in it catches an exception. *)
Definition fetch_and_update_run (t_fetched t_error t_table t_done : string)
    (fetched : result pyval) (app : MilitaryMonitor) : outcome MilitaryMonitor :=
  and_then (fetch_aircraft_data_run t_fetched t_error fetched app) (fun app1 =>
  and_then (update_aircraft_table_run t_table app1) (fun app2 =>
  and_then (update_alerts_run app2) (fun app3 =>
  log_message_run t_done [Lit "Data refreshed."] app3))).

Definition on_filter_panel_filters_changed_run (t_event t_table : string)
    (event : FiltersChanged) (app : MilitaryMonitor) : outcome MilitaryMonitor :=
  and_then (log_message_run t_event [Lit "Filters updated - reapplying"] app)
    (fun app1 =>
  and_then (update_aircraft_table_run t_table app1) update_alerts_run).

Definition action_refresh_now_run
    (t_request t_fetched t_error t_table t_done : string)
    (fetched : result pyval) (app : MilitaryMonitor) : outcome MilitaryMonitor :=
  and_then (log_message_run t_request [Lit "Manual refresh requested"] app)
    (fetch_and_update_run t_fetched t_error t_table t_done fetched).

(** [action_clear_debug]: [lines.clear()], [update("")] on the log widget,
    then one message. *)
Definition action_clear_debug_run (timestamp : string) (app : MilitaryMonitor)
    : outcome MilitaryMonitor :=
  let cleared :=
    set_debug_log {| max_lines := max_lines (debug_log app); lines := [] |} app in
  if markup_ok []
  then log_message_run timestamp [Lit "Debug log cleared"] cleared
  else Raised MarkupError cleared.

(** [on_mount], whole, run at time [now]. *)
Definition on_mount_run (now : Z)
    (t_start t_fetching t_fetched t_error t_table t_done : string)
    (fetched : result pyval) (app : MilitaryMonitor) : outcome MilitaryMonitor :=
  and_then (log_message_run t_start [Lit "Military Monitor started"] app)
    (fun app1 =>
  and_then (log_message_run t_fetching
              [Lit "Fetching live military aircraft data from ADSB.lol..."] app1)
    (fun app2 =>
  fetch_and_update_run t_fetched t_error t_table t_done fetched
    (set_timer now 10 FetchAndUpdate app2))).

(** *** Events *)

(** What the framework delivers to the application: the mount, a tick of
    the refresh timer (its callback is [fetch_and_update]), the keys bound
    to [refresh_now] and [clear_debug], and a change of a checkbox of the
    panel. Each event carries the clock readings its log messages take and,
    for a refresh, the outcome of the request. *)
Inductive event : Type :=
| Mounted (now : Z)
    (t_start t_fetching t_fetched t_error t_table t_done : string)
    (fetched : result pyval)
| TimerTick (t_fetched t_error t_table t_done : string) (fetched : result pyval)
| KeyRefresh (t_request t_fetched t_error t_table t_done : string)
    (fetched : result pyval)
| KeyClearDebug (timestamp : string)
| CheckboxChanged (checkbox_id : string) (value : bool) (t_event t_table : string).

(** The handler of each event. A checkbox change runs
    [on_checkbox_changed] of the panel, and the [FiltersChanged] message it
    posts is handled by [on_filter_panel_filters_changed]. *)
Definition handle (ev : event) (app : MilitaryMonitor) : outcome MilitaryMonitor :=
  match ev with
  | Mounted now t_start t_fetching t_fetched t_error t_table t_done fetched =>
      on_mount_run now t_start t_fetching t_fetched t_error t_table t_done
        fetched app
  | TimerTick t_fetched t_error t_table t_done fetched =>
      fetch_and_update_run t_fetched t_error t_table t_done fetched app
  | KeyRefresh t_request t_fetched t_error t_table t_done fetched =>
      action_refresh_now_run t_request t_fetched t_error t_table t_done
        fetched app
  | KeyClearDebug timestamp =>
      action_clear_debug_run timestamp app
  | CheckboxChanged checkbox_id value t_event t_table =>
      let posted := on_checkbox_changed checkbox_id value
                      (filter_panel app) (objs app) in
      on_filter_panel_filters_changed_run t_event t_table (snd posted)
        (with_filter_state (fst posted) (filter_panel app) app)
  end.

(** The application over a sequence of events, first event first: an
    exception that leaves a handler ends the run. *)
Fixpoint run (events : list event) (app : MilitaryMonitor)
    : outcome MilitaryMonitor :=
  match events with
  | [] => Done app
  | ev :: rest => and_then (handle ev app) (run rest)
  end.

End Calls.

(** *** A markup check for plain text *)

(** The check used to run the model on the sample feeds. It is what the
    parser does with strings that open no tag and escape no bracket: a
    closing tag, "[/" up to the next "]", has nothing to close and is
    refused. [seen] is 0 outside a tag, 1 after "[" and 2 inside a closing
    tag. *)
Fixpoint has_closing_tag (seen : nat) (s : string) : bool :=
  match s with
  | EmptyString => false
  | String c rest =>
      if Ascii.eqb c "["
      then has_closing_tag 1 rest
      else match seen with
           | 1 => if Ascii.eqb c "/" then has_closing_tag 2 rest
                  else has_closing_tag 0 rest
           | 2 => if Ascii.eqb c "]" then true else has_closing_tag 2 rest
           | _ => has_closing_tag 0 rest
           end
  end.

(** The strings of the feed or of the program that a piece puts in the
    text as they are; the check reads these and nothing else. *)
Definition piece_strings (p : piece) : list string :=
  match p with
  | Lit s | Str s | Obj (VStr s) => [s]
  | ExnText (ValueError s) | ExnText (RequestError s) => [s]
  | _ => []
  end.

Definition plain_text_markup : Textual :=
  {| markup_ok := fun content =>
       negb (existsb (fun p => existsb (has_closing_tag 0) (piece_strings p))
               content) |}.

(** *** What holds between events *)

(** The log is the one [DebugLog.__init__] bounds at 1000 lines. *)
Definition log_within_bound (app : MilitaryMonitor) : Prop :=
  max_lines (debug_log app) = 1000 /\ length (lines (debug_log app)) <= 1000.

(** Every record of the snapshot has a category that [CATEGORIES] lists. *)
Definition categories_declared (app : MilitaryMonitor) : Prop :=
  Forall (fun ac => In (category ac) (map fst CATEGORIES)) (aircraft_data app).

(** The table and the alerts area show the current snapshot under the
    current filter set, the log is within its bound and the categories are
    declared ones. *)
Definition coherent (app : MilitaryMonitor) : Prop :=
  table app
  = row_of <$> filter (fun ac => category ac ∈
                         deref (objs app) (active_filters (filter_panel app)))
                 (aircraft_data app)
  /\ alerts_content app
     = alerts_text (alert_line <$> filter airborne_offensive (aircraft_data app))
  /\ log_within_bound app
  /\ categories_declared app.

(** What every call keeps, however it ends: the bound of the log and the
    declared categories; and an exception that leaves it is a MarkupError. *)
Definition kept (o : outcome MilitaryMonitor) : Prop :=
  match o with
  | Done app => log_within_bound app /\ categories_declared app
  | Raised e app =>
      e = MarkupError /\ log_within_bound app /\ categories_declared app
  end.

(** How an event may leave the application: handled, with the views in
    step; or left by a MarkupError, the log and the categories still
    sound. *)
Definition settled (o : outcome MilitaryMonitor) : Prop :=
  match o with
  | Done app => coherent app
  | Raised e app =>
      e = MarkupError /\ log_within_bound app /\ categories_declared app
  end.

(** ** Sample feeds *)

(** Sample inputs, run with [ascii_runtime]. *)

Definition float_360 : pyfloat := S754_finite false 6333186975989760 (-44).

(** A C-17 on the ground, with no speed or track reported. *)
Definition entry_grounded : list (string * pyval) :=
  [("flight", VStr "RCH123  "); ("t", VStr "C17"); ("alt_baro", VStr "ground")].

Definition record_grounded : MilitaryAircraft :=
  {| callsign := "RCH123"; aircraft_type := "C17"; owner := VStr "Unknown";
     altitude := float_zero; speed := float_zero; heading := float_zero;
     category := "transport" |}.

(** An entry with no callsign at all. *)
Definition entry_anonymous : list (string * pyval) :=
  [("t", VStr "f16"); ("alt_baro", VInt 30000)].

Definition record_anonymous : MilitaryAircraft :=
  {| callsign := "NO CALL"; aircraft_type := "f16"; owner := VStr "Unknown";
     altitude := S754_finite false 8246337208320000 (-38);
     speed := float_zero; heading := float_zero; category := "fighter" |}.

(** An entry whose callsign is three spaces. *)
Definition entry_blank_callsign : list (string * pyval) :=
  [("flight", VStr "   "); ("t", VStr "F16"); ("alt_baro", VInt 30000)].

Definition record_blank_callsign : MilitaryAircraft :=
  {| callsign := ""; aircraft_type := "F16"; owner := VStr "Unknown";
     altitude := S754_finite false 8246337208320000 (-38);
     speed := float_zero; heading := float_zero; category := "fighter" |}.

(** An entry below sea level, moving backwards, heading 400 degrees. *)
Definition entry_out_of_range : list (string * pyval) :=
  [("flight", VStr "TEST01"); ("t", VStr "F16"); ("alt_baro", VInt (-100));
   ("gs", VInt (-5)); ("track", VInt 400)].

(** A feed whose second record has the altitude "n/a". *)
Definition feed_bad_altitude : list (string * pyval) :=
  [("ac", VList [VDict entry_anonymous;
                 VDict [("flight", VStr "VIPER1"); ("t", VStr "F16");
                        ("alt_baro", VStr "n/a")]])].

(** A feed whose only record has the empty string as altitude. *)
Definition feed_empty_altitude : list (string * pyval) :=
  [("ac", VList [VDict [("flight", VStr "VIPER1"); ("t", VStr "F16");
                        ("alt_baro", VStr "")]])].

(** A feed whose only record has the altitude "[/b]". *)
Definition feed_markup_altitude : list (string * pyval) :=
  [("ac", VList [VDict [("flight", VStr "VIPER1"); ("t", VStr "F16");
                        ("alt_baro", VStr "[/b]")]])].



(** The store and the panel [FilterPanel.__init__] makes first. *)
Definition initial_store : store := fst (FilterPanel_init ∅).
Definition initial_panel : FilterPanel := snd (FilterPanel_init ∅).

(** ** Properties of the classifier *)

Lemma startswith_is_prefix (s p : string) :
  startswith s p = true <-> is_prefix p s.
Proof.
  unfold startswith, is_prefix. revert s.
  induction p as [|a p IH]; intros s.
  - destruct s; simpl; split; eauto.
  - destruct s as [|b s]; simpl.
    + split; [discriminate | intros [r Hr]; discriminate].
    + destruct (ascii_dec a b) as [->|Hne].
      * rewrite IH. split; intros [r Hr]; exists r.
        -- by rewrite Hr.
        -- by injection Hr.
      * split; [discriminate | intros [r Hr]; injection Hr; congruence].
Qed.

Lemma startswith_false (s p : string) :
  startswith s p = false <-> ~ is_prefix p s.
Proof.
  rewrite <- startswith_is_prefix. destruct (startswith s p); split; congruence.
Qed.

Lemma scan_table_Some (table : list (string * string)) (code cat : string) :
  scan_table table code = Some cat <-> exists i, first_match table code i cat.
Proof.
  induction table as [|[q c] table IH]; simpl.
  - split; [discriminate | intros (i & p & Hi & _); by destruct i].
  - destruct (startswith code q) eqn:Hq.
    + apply startswith_is_prefix in Hq. split.
      * intros [= <-]. exists 0, q. repeat split; [done | lia].
      * intros (i & p & Hi & Hp & Hmin). destruct i as [|i].
        -- simpl in Hi. congruence.
        -- exfalso. apply (Hmin 0 q c); [lia | done | done].
    + apply startswith_false in Hq. rewrite IH. split.
      * intros (i & p & Hi & Hp & Hmin). exists (S i), p. repeat split; try done.
        intros [|j] q' c' Hj Hl; simpl in Hl.
        -- by injection Hl as <- <-.
        -- apply (Hmin j q' c'); [lia | done].
      * intros (i & p & Hi & Hp & Hmin). destruct i as [|i]; simpl in Hi.
        -- injection Hi as <- <-. done.
        -- exists i, p. repeat split; try done.
           intros j q' c' Hj Hl. apply (Hmin (S j) q' c'); [lia | done].
Qed.

Lemma scan_table_None (table : list (string * string)) (code : string) :
  scan_table table code = None <-> no_match table code.
Proof.
  unfold no_match. induction table as [|[q c] table IH]; simpl.
  - split; [intros _ j q c Hj; by destruct j | done].
  - destruct (startswith code q) eqn:Hq.
    + apply startswith_is_prefix in Hq. split; [discriminate|].
      intros Hno. exfalso. by apply (Hno 0 q c).
    + apply startswith_false in Hq. rewrite IH. split.
      * intros Hno [|j] q' c' Hl; simpl in Hl.
        -- by injection Hl as <- <-.
        -- by apply (Hno j q' c').
      * intros Hno j q' c' Hl. by apply (Hno (S j) q' c').
Qed.

Lemma prefixes_comparable (p q s : string) :
  is_prefix p s -> is_prefix q s -> comparable p q = true.
Proof.
  unfold comparable. rewrite <- !startswith_is_prefix. unfold startswith.
  revert p q. induction s as [|b s IH]; intros p q.
  - destruct p, q; simpl; try discriminate; done.
  - destruct p as [|a p], q as [|a' q]; simpl; try done.
    destruct (ascii_dec a b) as [->|]; [|discriminate].
    destruct (ascii_dec a' b) as [->|]; [|discriminate].
    destruct (ascii_dec b b); [|done]. apply IH.
Qed.

Lemma chain_free_spec (keys : list string) (k i j : nat) (pk pi pj : string) :
  chain_free keys = true ->
  keys !! k = Some pk -> keys !! i = Some pi -> keys !! j = Some pj ->
  k < i -> i < j ->
  comparable pk pi = true -> comparable pi pj = true -> False.
Proof.
  unfold chain_free. intros Hfree Hk Hi Hj Hki Hij Hc1 Hc2.
  assert (Hin : forall n x, keys !! n = Some x ->
            In n (seq 0 (length keys)) /\ nth n keys "" = x).
  { intros n x Hn. split.
    - apply in_seq. apply lookup_lt_Some in Hn. lia.
    - by apply nth_lookup_Some with (d := "") in Hn. }
  destruct (Hin _ _ Hk) as [Ik Ek], (Hin _ _ Hi) as [Ii Ei], (Hin _ _ Hj) as [Ij Ej].
  rewrite forallb_forall in Hfree. specialize (Hfree k Ik).
  rewrite forallb_forall in Hfree. specialize (Hfree i Ii).
  rewrite forallb_forall in Hfree. specialize (Hfree j Ij).
  rewrite Ek, Ei, Ej, Hc1, Hc2 in Hfree.
  apply Nat.ltb_lt in Hki, Hij. rewrite Hki, Hij in Hfree. discriminate.
Qed.

Lemma TYPE_TO_CATEGORY_keys_NoDup : NoDup (map fst TYPE_TO_CATEGORY).
Proof. apply (bool_decide_unpack _). vm_compute. exact I. Qed.

Lemma TYPE_TO_CATEGORY_chain_free : chain_free (map fst TYPE_TO_CATEGORY) = true.
Proof. vm_compute. reflexivity. Qed.

Section ClassifierProperties.
Context `{PyRuntime}.

(** C1. [map_type_to_category] returns "other" for an absent or empty
    code; for any other code it uppercases and returns the category of the
    first entry of [TYPE_TO_CATEGORY], in declaration order, whose prefix
    is a literal prefix of the uppercased code, and "other" when no entry
    matches. It is a function defined on every input. *)
Theorem map_type_to_category_spec (icao_type : option string) :
  match icao_type with
  | None | Some EmptyString => map_type_to_category icao_type = "other"
  | Some s =>
      (exists i cat, first_match TYPE_TO_CATEGORY (upper s) i cat /\
                     map_type_to_category icao_type = cat)
      \/ (no_match TYPE_TO_CATEGORY (upper s) /\
          map_type_to_category icao_type = "other")
  end.
Proof.
  destruct icao_type as [[|a s]|]; [reflexivity | | reflexivity].
  unfold map_type_to_category.
  destruct (scan_table TYPE_TO_CATEGORY (upper (String a s))) as [cat|] eqn:Hscan.
  - left. apply scan_table_Some in Hscan as [i Hi]. by exists i, cat.
  - right. by apply scan_table_None in Hscan.
Qed.

(** C2. A non-empty code whose uppercased form starts with two declared
    prefixes is given the category of the one declared earlier. *)
Theorem earlier_declared_prefix_wins (s : string) (i j : nat)
    (p1 c1 p2 c2 : string) :
  s <> "" ->
  i < j ->
  TYPE_TO_CATEGORY !! i = Some (p1, c1) ->
  TYPE_TO_CATEGORY !! j = Some (p2, c2) ->
  is_prefix p1 (upper s) ->
  is_prefix p2 (upper s) ->
  map_type_to_category (Some s) = c1.
Proof.
  intros Hs Hij Hi Hj Hp1 Hp2.
  destruct s as [|a s]; [done|]. unfold map_type_to_category.
  destruct (scan_table TYPE_TO_CATEGORY (upper (String a s))) as [cat|] eqn:Hscan.
  - apply scan_table_Some in Hscan as (k & p & Hk & Hp & Hmin).
    destruct (lt_eq_lt_dec k i) as [[Hlt | -> ] | Hgt].
    + exfalso.
      assert (Hk' : map fst TYPE_TO_CATEGORY !! k = Some p)
        by (by rewrite list_lookup_fmap, Hk).
      assert (Hi' : map fst TYPE_TO_CATEGORY !! i = Some p1)
        by (by rewrite list_lookup_fmap, Hi).
      assert (Hj' : map fst TYPE_TO_CATEGORY !! j = Some p2)
        by (by rewrite list_lookup_fmap, Hj).
      exact (chain_free_spec _ k i j p p1 p2 TYPE_TO_CATEGORY_chain_free
               Hk' Hi' Hj' Hlt Hij
               (prefixes_comparable _ _ _ Hp Hp1)
               (prefixes_comparable _ _ _ Hp1 Hp2)).
    + congruence.
    + exfalso. by apply (Hmin i p1 c1).
  - apply scan_table_None in Hscan. exfalso. by apply (Hscan i p1 c1).
Qed.

End ClassifierProperties.

(** C2 at the code "h60m": it starts with both "H6" (entry 26) and "H60"
    (entry 50) once uppercased, and is a bomber. *)
Lemma earlier_declared_prefix_wins_witness :
  "h60m" <> "" /\ 26 < 50 /\
  TYPE_TO_CATEGORY !! 26 = Some ("H6", "bomber") /\
  TYPE_TO_CATEGORY !! 50 = Some ("H60", "helicopter") /\
  is_prefix "H6" (@upper ascii_runtime "h60m") /\
  is_prefix "H60" (@upper ascii_runtime "h60m") /\
  @map_type_to_category ascii_runtime (Some "h60m") = "bomber".
Proof.
  assert (H1 : "h60m" <> "") by discriminate.
  assert (H2 : 26 < 50) by lia.
  assert (H3 : TYPE_TO_CATEGORY !! 26 = Some ("H6", "bomber")) by reflexivity.
  assert (H4 : TYPE_TO_CATEGORY !! 50 = Some ("H60", "helicopter")) by reflexivity.
  assert (H5 : is_prefix "H6" (@upper ascii_runtime "h60m"))
    by (exists "0M"; reflexivity).
  assert (H6 : is_prefix "H60" (@upper ascii_runtime "h60m"))
    by (exists "M"; reflexivity).
  refine (conj H1 (conj H2 (conj H3 (conj H4 (conj H5 (conj H6 _)))))).
  exact (@earlier_declared_prefix_wins ascii_runtime "h60m" 26 50
           "H6" "bomber" "H60" "helicopter" H1 H2 H3 H4 H5 H6).
Defined.

(** ** The fetch cycle *)

Section FetchProperties.
Context `{PyRuntime}.

Lemma for_each_raises {A B : Type} (f : A -> result B) (xs : list A) (x : A) (e : pyexn) :
  In x xs -> f x = Raise e -> exists e', for_each f xs = Raise e'.
Proof.
  induction xs as [|y xs IH]; simpl; [done|].
  intros [-> | Hin] Hx.
  - rewrite Hx. by exists e.
  - destruct (f y) as [b|e0]; simpl; [|by exists e0].
    destruct (IH Hin Hx) as [e' ->]. by exists e'.
Qed.

Lemma truthy_nonempty_str (s : string) : s <> "" -> truthy (VStr s) = true.
Proof. intros Hs. simpl. by apply negb_true_iff, String.eqb_neq. Qed.

Lemma build_aircraft_bad_altitude (entry : list (string * pyval)) (s : string) :
  assoc_get "alt_baro" entry = Some (VStr s) ->
  s <> "" -> s <> "ground" -> float_of_str s = None ->
  exists e, build_aircraft (VDict entry) = Raise e.
Proof.
  intros Halt Hne Hground Hfloat. unfold build_aircraft. simpl.
  destruct (as_str _ "strip") as [flight|e0]; simpl; [|by exists e0].
  rewrite Halt.
  assert (is_ground (VStr s) = false) as -> by (by apply String.eqb_neq).
  assert (py_or (VStr s) (VInt 0) = VStr s) as ->
    by (unfold py_or; by rewrite truthy_nonempty_str).
  simpl.
  rewrite Hfloat. simpl. by eexists.
Qed.

Lemma fetch_failure_raises (fetched : result pyval) :
  fetch_failure fetched -> exists e, fetched ≫= read_feed = Raise e.
Proof.
  intros [e | data e Hraise | doc entries entry s Hac Hin Halt Hne Hground Hfloat].
  - by exists e.
  - by exists e.
  - simpl. unfold read_feed. simpl. rewrite Hac. simpl.
    destruct (build_aircraft_bad_altitude entry s Halt Hne Hground Hfloat) as [e He].
    destruct (for_each_raises build_aircraft entries _ e Hin He) as [e' ->].
    by exists e'.
Qed.

(** Two shapes of malformed payload: a document that is not an object, and
    a list of records one of which is not an object. *)
Lemma document_not_object_fails (data : pyval) :
  (forall items, data <> VDict items) -> fetch_failure (Ok data).
Proof.
  intros Hshape. apply payload_malformed with (AttributeError data "get").
  destruct data; try reflexivity. by destruct (Hshape items).
Qed.

Lemma entry_not_object_fails (doc : list (string * pyval)) (entries : list pyval)
    (entry : pyval) :
  assoc_get "ac" doc = Some (VList entries) ->
  In entry entries ->
  (forall items, entry <> VDict items) ->
  fetch_failure (Ok (VDict doc)).
Proof.
  intros Hac Hin Hshape.
  assert (Hentry : build_aircraft entry = Raise (AttributeError entry "get")).
  { destruct entry; try reflexivity. by destruct (Hshape items). }
  destruct (for_each_raises build_aircraft entries entry _ Hin Hentry) as [e He].
  apply payload_malformed with e. unfold read_feed. simpl. rewrite Hac. simpl.
  by rewrite He.
Qed.

End FetchProperties.

(** ** The two views *)

Section ViewProperties.

(** A loop that appends [g x] for the items that pass a test collects the
    images of the filtered items, in order. *)
Lemma fold_left_collect {A B : Type} (P : A -> Prop) `{!forall x, Decision (P x)}
    (test : A -> bool) (g : A -> B) (xs : list A) (acc : list B) :
  (forall x, test x = true <-> P x) ->
  fold_left (fun out x => if test x then out ++ [g x] else out) xs acc
  = acc ++ (g <$> filter P xs).
Proof.
  intros Htest. revert acc. induction xs as [|x xs IH]; intros acc; simpl.
  - by rewrite app_nil_r.
  - rewrite IH. destruct (test x) eqn:Hx.
    + rewrite filter_cons_True by (by apply Htest).
      by rewrite <- app_assoc.
    + rewrite filter_cons_False; [done|].
      intros HP. apply Htest in HP. congruence.
Qed.

Lemma offensive_test (ac : MilitaryAircraft) :
  bool_decide (category ac ∈ offensive_categories)
  && float_ltb float_zero (altitude ac) = true
  <-> airborne_offensive ac.
Proof.
  unfold airborne_offensive, offensive_categories.
  rewrite andb_true_iff, bool_decide_eq_true. set_solver.
Qed.

Lemma offensive_alerts_filter (data : list MilitaryAircraft) :
  offensive_alerts data = alert_line <$> filter airborne_offensive data.
Proof.
  unfold offensive_alerts.
  by rewrite (fold_left_collect airborne_offensive _ alert_line data []
                offensive_test).
Qed.

Lemma zero_altitude_not_above (x : pyfloat) :
  float_eqb x float_zero = true -> float_ltb float_zero x = false.
Proof. by destruct x as [s|s| |s m e]; try destruct s. Qed.

(** C4. The alerts [update_alerts] computes are the alert lines of the
    records of the whole snapshot, in snapshot order, whose category is
    fighter or bomber and whose altitude is above zero. They do not depend
    on the filter set, and no record with altitude zero is among them. *)
Theorem update_alerts_spec (app : MilitaryMonitor) (objs' : store)
    (panel' : FilterPanel) :
  let alerted := filter airborne_offensive (aircraft_data app) in
  offensive_alerts (aircraft_data app) = alert_line <$> alerted
  /\ alerts_content (update_alerts app) = alerts_text (alert_line <$> alerted)
  /\ alerted `sublist_of` aircraft_data app
  /\ alerts_content (update_alerts (with_filter_state objs' panel' app))
     = alerts_content (update_alerts app)
  /\ Forall (fun ac => float_eqb (altitude ac) float_zero = false) alerted.
Proof.
  intros alerted. subst alerted. repeat split.
  - apply offensive_alerts_filter.
  - unfold update_alerts. simpl. by rewrite offensive_alerts_filter.
  - apply sublist_filter.
  - apply Forall_forall. intros ac [[_ Hair] _]%list_elem_of_filter.
    destruct (float_eqb (altitude ac) float_zero) eqn:Hzero; [|done].
    apply zero_altitude_not_above in Hzero. congruence.
Qed.

Lemma filtered_by_filter (active : gset string) (data : list MilitaryAircraft) :
  filtered_by active data = filter (fun ac => category ac ∈ active) data.
Proof.
  induction data as [|ac data IH]; simpl; [done|].
  rewrite IH. case_bool_decide.
  - by rewrite filter_cons_True.
  - by rewrite filter_cons_False.
Qed.

Lemma add_rows (data : list MilitaryAircraft) :
  fold_left (fun tbl ac => tbl ++ [row_of ac]) data [] = row_of <$> data.
Proof.
  rewrite (fold_left_collect (fun _ => True) (fun _ => true) row_of data []);
    [|done].
  simpl. f_equal. induction data as [|ac data IH]; [done|].
  by rewrite filter_cons_True, IH.
Qed.

Lemma update_aircraft_table_rows (timestamp : string) (app : MilitaryMonitor) :
  table (update_aircraft_table timestamp app)
  = row_of <$> filter (fun ac => category ac ∈
                         deref (objs app) (active_filters (filter_panel app)))
                 (aircraft_data app).
Proof.
  unfold update_aircraft_table. simpl. by rewrite add_rows, filtered_by_filter.
Qed.

(** C5. The rows [update_aircraft_table] puts in the table are those of the
    snapshot records whose category is in the active filter set, in
    snapshot order; the snapshot itself is left as it is. *)
Theorem update_aircraft_table_spec (timestamp : string) (app : MilitaryMonitor) :
  let active := deref (objs app) (active_filters (filter_panel app)) in
  let shown := filter (fun ac => category ac ∈ active) (aircraft_data app) in
  table (update_aircraft_table timestamp app) = row_of <$> shown
  /\ shown `sublist_of` aircraft_data app
  /\ aircraft_data (update_aircraft_table timestamp app) = aircraft_data app.
Proof.
  intros active shown. subst active shown. repeat split.
  - apply update_aircraft_table_rows.
  - apply sublist_filter.
Qed.

(** C10. A record whose stored callsign is empty is shown as "NO CALL" in
    its table row and in its alert line; no row of the table and no alert
    line carries an empty callsign. *)
Theorem empty_callsign_shown_as_no_call (ac : MilitaryAircraft)
    (timestamp : string) (app : MilitaryMonitor) :
  callsign ac = "" ->
  cell_callsign (row_of ac) = "NO CALL"
  /\ (exists rest, alert_line ac = Lit "• " :: Str "NO CALL" :: rest)
  /\ Forall (fun row => cell_callsign row <> "")
       (table (update_aircraft_table timestamp app))
  /\ Forall (fun line => exists shown rest,
               line = Lit "• " :: Str shown :: rest /\ shown <> "")
       (offensive_alerts (aircraft_data app)).
Proof.
  intros Hempty.
  assert (Hshown : forall x, or_no_call x <> "").
  { intros x. unfold or_no_call. destruct (String.eqb x "") eqn:Hx; [done|].
    by apply String.eqb_neq. }
  repeat split.
  - unfold row_of, or_no_call. simpl. by rewrite Hempty.
  - unfold alert_line, or_no_call. rewrite Hempty. simpl. by eexists.
  - rewrite update_aircraft_table_rows.
    apply Forall_fmap, Forall_forall. intros x _. apply Hshown.
  - rewrite offensive_alerts_filter.
    apply Forall_fmap, Forall_forall. intros x _. simpl.
    eexists _, _. split; [reflexivity | apply Hshown].
Qed.

End ViewProperties.

(** ** Records built from feed entries *)

Section RecordProperties.
Context `{PyRuntime}.

Lemma bind_Ok {A B : Type} (r : result A) (k : A -> result B) (b : B) :
  r ≫= k = Ok b -> exists a, r = Ok a /\ k a = Ok b.
Proof. destruct r as [a|e]; simpl; [by exists a | discriminate]. Qed.

(** A record is built exactly when every conversion of the loop body
    succeeds, and then each field is the converted value. *)
Lemma build_aircraft_Ok (entry : list (string * pyval)) (ac : MilitaryAircraft) :
  build_aircraft (VDict entry) = Ok ac ->
  exists flight_str icao_str,
    as_str (py_or (field entry "flight") (VStr "NO CALL")) "strip" = Ok flight_str
    /\ as_str (py_or (field entry "t") (VStr "UNKNOWN")) "upper" = Ok icao_str
    /\ (if is_ground (field entry "alt_baro") then Ok float_zero
        else py_float (py_or (field entry "alt_baro") (VInt 0))) = Ok (altitude ac)
    /\ py_float (py_or (field entry "gs") (VInt 0)) = Ok (speed ac)
    /\ py_float (py_or (field entry "track") (VInt 0)) = Ok (heading ac)
    /\ callsign ac = strip flight_str
    /\ aircraft_type ac = icao_str
    /\ owner ac = py_or (field entry "owner") (VStr "Unknown")
    /\ category ac = map_type_to_category (Some icao_str).
Proof.
  unfold build_aircraft. simpl. fold (field entry "flight") (field entry "t")
    (field entry "owner") (field entry "alt_baro") (field entry "gs")
    (field entry "track").
  intros Hbuild.
  apply bind_Ok in Hbuild as (flight_str & Hflight & Hbuild).
  apply bind_Ok in Hbuild as (alt & Halt & Hbuild).
  apply bind_Ok in Hbuild as (spd & Hspd & Hbuild).
  apply bind_Ok in Hbuild as (hdg & Hhdg & Hbuild).
  apply bind_Ok in Hbuild as (icao_str & Hicao & Hbuild).
  injection Hbuild as <-. simpl. by exists flight_str, icao_str.
Qed.

Lemma field_absent (entry : list (string * pyval)) (key : string) :
  assoc_get key entry = None -> field entry key = VNone.
Proof. unfold field. by intros ->. Qed.

Lemma field_present (entry : list (string * pyval)) (key : string) (v : pyval) :
  assoc_get key entry = Some v -> field entry key = v.
Proof. unfold field. by intros ->. Qed.

Lemma py_float_default : py_float (py_or VNone (VInt 0)) = Ok float_zero.
Proof. reflexivity. Qed.

(** C7 (amended). In every record built from a feed entry the altitude is
    +0.0 when [alt_baro] is "ground" or absent, the speed is 0.0 when [gs]
    is absent and the heading is 0.0 when [track] is absent; a non-zero
    float of the feed is stored as it is, whatever its sign or size. *)
Theorem build_aircraft_numbers (entry : list (string * pyval))
    (ac : MilitaryAircraft) :
  build_aircraft (VDict entry) = Ok ac ->
  (assoc_get "alt_baro" entry = Some (VStr "ground") -> altitude ac = float_zero)
  /\ (assoc_get "alt_baro" entry = None -> altitude ac = float_zero)
  /\ (assoc_get "gs" entry = None -> speed ac = float_zero)
  /\ (assoc_get "track" entry = None -> heading ac = float_zero)
  /\ (forall x, assoc_get "alt_baro" entry = Some (VFloat x) ->
                float_eqb x float_zero = false -> altitude ac = x)
  /\ (forall x, assoc_get "gs" entry = Some (VFloat x) ->
                float_eqb x float_zero = false -> speed ac = x)
  /\ (forall x, assoc_get "track" entry = Some (VFloat x) ->
                float_eqb x float_zero = false -> heading ac = x).
Proof.
  intros Hbuild.
  destruct (build_aircraft_Ok entry ac Hbuild)
    as (flight_str & icao_str & _ & _ & Halt & Hspd & Hhdg & _).
  assert (Hfloat : forall x, float_eqb x float_zero = false ->
            py_float (py_or (VFloat x) (VInt 0)) = Ok x).
  { intros x Hx. unfold py_or. simpl. by rewrite Hx. }
  repeat split.
  - intros Hg. rewrite (field_present _ _ _ Hg) in Halt. simpl in Halt. congruence.
  - intros Hg. rewrite (field_absent _ _ Hg) in Halt.
    change (py_float (py_or VNone (VInt 0)) = Ok (altitude ac)) in Halt.
    rewrite py_float_default in Halt. congruence.
  - intros Hg. rewrite (field_absent _ _ Hg), py_float_default in Hspd.
    congruence.
  - intros Hg. rewrite (field_absent _ _ Hg), py_float_default in Hhdg.
    congruence.
  - intros x Hg Hx. rewrite (field_present _ _ _ Hg) in Halt. simpl in Halt.
    rewrite (Hfloat x Hx) in Halt. congruence.
  - intros x Hg Hx. rewrite (field_present _ _ _ Hg), (Hfloat x Hx) in Hspd.
    congruence.
  - intros x Hg Hx. rewrite (field_present _ _ _ Hg), (Hfloat x Hx) in Hhdg.
    congruence.
Qed.

(** C8 (amended). In every record built from a feed entry the callsign is
    "NO CALL" when [flight] is absent, null or the empty string, and the
    stripped text of [flight] when that is a non-empty string. The first
    part rests on [strip] leaving "NO CALL" as it is. *)
Theorem build_aircraft_callsign (entry : list (string * pyval))
    (ac : MilitaryAircraft) :
  strip "NO CALL" = "NO CALL" ->
  build_aircraft (VDict entry) = Ok ac ->
  (assoc_get "flight" entry = None -> callsign ac = "NO CALL")
  /\ (assoc_get "flight" entry = Some VNone -> callsign ac = "NO CALL")
  /\ (assoc_get "flight" entry = Some (VStr "") -> callsign ac = "NO CALL")
  /\ (forall s, assoc_get "flight" entry = Some (VStr s) -> s <> "" ->
                callsign ac = strip s).
Proof.
  intros Hstrip Hbuild.
  destruct (build_aircraft_Ok entry ac Hbuild)
    as (flight_str & icao_str & Hflight & _ & _ & _ & _ & Hcall & _).
  rewrite Hcall. repeat split.
  - intros Hg. rewrite (field_absent _ _ Hg) in Hflight. simpl in Hflight.
    injection Hflight as <-. done.
  - intros Hg. rewrite (field_present _ _ _ Hg) in Hflight. simpl in Hflight.
    injection Hflight as <-. done.
  - intros Hg. rewrite (field_present _ _ _ Hg) in Hflight. simpl in Hflight.
    injection Hflight as <-. done.
  - intros s Hg Hs. rewrite (field_present _ _ _ Hg) in Hflight.
    unfold py_or in Hflight. rewrite (truthy_nonempty_str s Hs) in Hflight.
    simpl in Hflight. by injection Hflight as <-.
Qed.

End RecordProperties.

(** ** The filter set and its message *)

Section FilterProperties.

Lemma deref_insert (objs : store) (a : addr) (X : gset string) :
  deref (<[a := X]> objs) a = X.
Proof. unfold deref. apply lookup_total_insert_eq. Qed.

(** C9 (amended). The message [on_checkbox_changed] posts carries the
    panel's own filter set, not a copy: its [filters] is the address in
    [active_filters], so removing from or adding to the delivered set
    changes the set the panel reads. *)
Theorem filters_changed_payload_is_shared (checkbox_id : string) (value : bool)
    (panel : FilterPanel) (objs : store) (x : string) :
  let objs' := (on_checkbox_changed checkbox_id value panel objs).1 in
  let message := (on_checkbox_changed checkbox_id value panel objs).2 in
  filters message = active_filters panel
  /\ deref (set_discard (filters message) x objs') (active_filters panel)
     = deref objs' (active_filters panel) ∖ {[x]}
  /\ deref (set_add (filters message) x objs') (active_filters panel)
     = deref objs' (active_filters panel) ∪ {[x]}.
Proof.
  simpl. repeat split.
  - unfold set_discard. by rewrite deref_insert.
  - unfold set_add at 1. by rewrite deref_insert.
Qed.

End FilterProperties.

(** ** The refresh timer *)

Section TimerProperties.
Context `{PyRuntime}.

Lemma fetch_and_update_timers (t1 t2 t3 : string) (fetched : result pyval)
    (app : MilitaryMonitor) :
  timers (fetch_and_update t1 t2 t3 fetched app) = timers app.
Proof.
  unfold fetch_and_update, fetch_aircraft_data.
  by destruct (fetched ≫= read_feed) as [[new_aircraft count]|e].
Qed.

(** C6 on the code. After [on_mount] the only timer is the one-shot timer
    [set_timer] made: a refresh happens at mount time and 10 seconds
    later, and at no later multiple of 10 seconds. *)
Theorem on_mount_refreshes_twice (t1 t2 t3 t4 t5 : string)
    (fetched : result pyval) (n : nat) :
  let app := on_mount 0 t1 t2 t3 t4 t5 fetched MilitaryMonitor_init in
  timers app = [{| started := 0; interval := 10; repeat := Some 0%nat;
                   action := FetchAndUpdate |}]
  /\ refresh_at 0 app 0 = true
  /\ refresh_at 0 app 10 = true
  /\ refresh_at 0 app 20 = false
  /\ refresh_at 0 app (10 * (2 + Z.of_nat n)) = false.
Proof.
  intros app. subst app.
  assert (Htimers : timers (on_mount 0 t1 t2 t3 t4 t5 fetched MilitaryMonitor_init)
            = [{| started := 0; interval := 10; repeat := Some 0%nat;
                  action := FetchAndUpdate |}]).
  { unfold on_mount. by rewrite fetch_and_update_timers. }
  unfold refresh_at. rewrite Htimers. repeat split.
  unfold existsb, timer_fires. simpl started. simpl interval. simpl repeat.
  cbv match.
  assert (Hdiv : ((10 * (2 + Z.of_nat n) - 0) / 10 = 2 + Z.of_nat n)%Z).
  { rewrite Z.sub_0_r, Z.mul_comm. apply Z.div_mul. lia. }
  rewrite Hdiv.
  assert ((2 + Z.of_nat n - 1 <=? Z.of_nat 0)%Z = false) as ->
    by (apply Z.leb_gt; lia).
  assert ((10 * (2 + Z.of_nat n) =? 0)%Z = false) as ->
    by (apply Z.eqb_neq; lia).
  by rewrite !andb_false_r.
Qed.

End TimerProperties.

(** ** Concrete feeds *)

Section ConcreteFeeds.
#[local] Existing Instance ascii_runtime.

(** Scenario 5 of the specification, and the codes on either side of the
    overlap between "H6" and "H60". *)
Example classify_FA18C : map_type_to_category (Some "FA18C") = "fighter".
Proof. reflexivity. Qed.

Example classify_lowercase : map_type_to_category (Some "kc135r") = "tanker".
Proof. reflexivity. Qed.

Example classify_UH60 : map_type_to_category (Some "UH60") = "helicopter".
Proof. reflexivity. Qed.

Example classify_unknown : map_type_to_category (Some "UNKNOWN") = "other".
Proof. reflexivity. Qed.

(** Scenarios 1 to 3 of the specification: one airborne F-16 with every
    filter on; the same with the fighter filter off; one F-16 on the
    ground. *)
Example scenario_all_filters :
  let app := fetch_and_update "12:00:00" "12:00:01" "12:00:02"
               (Ok (VDict [("ac", VList [VDict entry_anonymous])]))
               MilitaryMonitor_init in
  map category (aircraft_data app) = ["fighter"]
  /\ map cell_callsign (table app) = ["NO CALL"]
  /\ alerts_content app = alert_line record_anonymous.
Proof. cbv zeta. repeat split; vm_compute; reflexivity. Qed.

Example scenario_fighter_filter_off :
  let unticked := on_checkbox_changed "filter_fighter" false
                    (filter_panel MilitaryMonitor_init)
                    (objs MilitaryMonitor_init) in
  let app := fetch_and_update "12:00:00" "12:00:01" "12:00:02"
               (Ok (VDict [("ac", VList [VDict entry_anonymous])]))
               (with_filter_state unticked.1 (filter_panel MilitaryMonitor_init)
                  MilitaryMonitor_init) in
  table app = []
  /\ alerts_content app = alert_line record_anonymous.
Proof. cbv zeta. repeat split; vm_compute; reflexivity. Qed.

Example scenario_on_the_ground :
  let app := fetch_and_update "12:00:00" "12:00:01" "12:00:02"
               (Ok (VDict [("ac", VList [VDict
                  [("t", VStr "F16"); ("alt_baro", VStr "ground")]])]))
               MilitaryMonitor_init in
  map altitude (aircraft_data app) = [float_zero]
  /\ map cell_altitude (table app) = [[Lit "Ground"]]
  /\ alerts_content app = no_alerts.
Proof. cbv zeta. repeat split; vm_compute; reflexivity. Qed.

(** An altitude that is the empty string is falsy: [alt or 0] makes it 0
    and the record is built. *)
Example empty_altitude_defaults_to_zero :
  build_aircraft (VDict [("flight", VStr "VIPER1"); ("t", VStr "F16");
                         ("alt_baro", VStr "")])
  = Ok {| callsign := "VIPER1"; aircraft_type := "F16"; owner := VStr "Unknown";
          altitude := float_zero; speed := float_zero; heading := float_zero;
          category := "fighter" |}.
Proof. reflexivity. Qed.

(** C7, witness: the grounded C-17. *)
Lemma build_aircraft_numbers_witness :
  build_aircraft (VDict entry_grounded) = Ok record_grounded
  /\ altitude record_grounded = float_zero
  /\ speed record_grounded = float_zero
  /\ heading record_grounded = float_zero.
Proof.
  assert (Hbuild : build_aircraft (VDict entry_grounded) = Ok record_grounded)
    by reflexivity.
  destruct (build_aircraft_numbers entry_grounded record_grounded Hbuild)
    as (Hground & _ & Hspeed & Hheading & _).
  exact (conj Hbuild
           (conj (Hground eq_refl) (conj (Hspeed eq_refl) (Hheading eq_refl)))).
Defined.

(** C7, counterexample: a record is built with a negative altitude, a
    negative speed and a heading that is not below 360. *)
Lemma out_of_range_values_are_stored :
  exists ac, build_aircraft (VDict entry_out_of_range) = Ok ac
    /\ float_ltb (altitude ac) float_zero = true
    /\ float_ltb (speed ac) float_zero = true
    /\ float_ltb (heading ac) float_360 = false.
Proof. eexists. split; [reflexivity|]. repeat split. Qed.

(** C8, witness: without a [flight] field the callsign is "NO CALL". *)
Lemma build_aircraft_callsign_witness :
  strip "NO CALL" = "NO CALL"
  /\ build_aircraft (VDict entry_anonymous) = Ok record_anonymous
  /\ callsign record_anonymous = "NO CALL".
Proof.
  assert (Hstrip : strip "NO CALL" = "NO CALL") by reflexivity.
  assert (Hbuild : build_aircraft (VDict entry_anonymous) = Ok record_anonymous)
    by reflexivity.
  destruct (build_aircraft_callsign entry_anonymous record_anonymous Hstrip Hbuild)
    as (Habsent & _).
  exact (conj Hstrip (conj Hbuild (Habsent eq_refl))).
Defined.

(** C8, counterexample: a callsign of three spaces is blank, and the record
    built from it holds the empty string, not "NO CALL". *)
Lemma blank_callsign_is_stored_empty :
  assoc_get "flight" entry_blank_callsign = Some (VStr "   ")
  /\ build_aircraft (VDict entry_blank_callsign) = Ok record_blank_callsign
  /\ callsign record_blank_callsign = ""
  /\ callsign record_blank_callsign <> "NO CALL".
Proof. repeat split. discriminate. Qed.

(** C10, witness: that record is shown as "NO CALL". *)
Lemma empty_callsign_shown_as_no_call_witness :
  let app := set_aircraft_data [record_blank_callsign] MilitaryMonitor_init in
  callsign record_blank_callsign = ""
  /\ cell_callsign (row_of record_blank_callsign) = "NO CALL"
  /\ (exists rest, alert_line record_blank_callsign
                   = Lit "• " :: Str "NO CALL" :: rest)
  /\ Forall (fun row => cell_callsign row <> "")
       (table (update_aircraft_table "12:00:00" app))
  /\ Forall (fun line => exists shown rest,
               line = Lit "• " :: Str shown :: rest /\ shown <> "")
       (offensive_alerts (aircraft_data app)).
Proof.
  exact (conj eq_refl
           (empty_callsign_shown_as_no_call record_blank_callsign "12:00:00"
              (set_aircraft_data [record_blank_callsign] MilitaryMonitor_init)
              eq_refl)).
Defined.

End ConcreteFeeds.

(** C9, counterexample: a panel is created, the "fighter" box is ticked,
    and the receiver of the message removes "fighter" from the set it was
    handed: the panel's own set has lost "fighter". *)
Lemma delivered_set_is_the_internal_set :
  let objs0 := (FilterPanel_init ∅).1 in
  let panel := (FilterPanel_init ∅).2 in
  let objs1 := (on_checkbox_changed "filter_fighter" true panel objs0).1 in
  let message := (on_checkbox_changed "filter_fighter" true panel objs0).2 in
  let objs2 := set_discard (filters message) "fighter" objs1 in
  bool_decide ("fighter" ∈ deref objs1 (active_filters panel)) = true
  /\ bool_decide ("fighter" ∈ deref objs2 (active_filters panel)) = false.
Proof. cbv zeta. split; vm_compute; reflexivity. Qed.

(** * Further properties of the code *)

(** ** The system log *)

Section LogProperties.

Lemma add_message_lines (timestamp : string) (message : text) (log : DebugLog) :
  lines (add_message timestamp message log)
  = (if Nat.ltb (max_lines log) (length (lines log ++ [log_line (timestamp, message)]))
     then tail (lines log ++ [log_line (timestamp, message)])
     else lines log ++ [log_line (timestamp, message)]).
Proof. reflexivity. Qed.

(** One call keeps a log within its bound, and stores the new line last. *)
Lemma add_message_bounded (timestamp : string) (message : text) (log : DebugLog) :
  length (lines log) <= max_lines log ->
  length (lines (add_message timestamp message log)) <= max_lines log.
Proof.
  intros Hlen. rewrite add_message_lines.
  destruct (Nat.ltb_spec (max_lines log)
              (length (lines log ++ [log_line (timestamp, message)]))) as [Hover|Hfit].
  - rewrite length_app in Hover. simpl in Hover.
    destruct (lines log ++ [log_line (timestamp, message)]) as [|x rest] eqn:Happ.
    + simpl. lia.
    + apply (f_equal length) in Happ. rewrite length_app in Happ.
      simpl in *. lia.
  - done.
Qed.

(** A run of calls on a log within its bound keeps the newest lines. *)
Lemma add_messages_lines (entries : list (string * text)) (log : DebugLog) :
  0 < max_lines log ->
  length (lines log) <= max_lines log ->
  lines (add_messages entries log)
  = drop (length (lines log) + length entries - max_lines log)
      (lines log ++ map log_line entries)
  /\ max_lines (add_messages entries log) = max_lines log.
Proof.
  revert log. induction entries as [|[ts msg] entries IH]; intros log Hpos Hlen.
  - simpl. rewrite app_nil_r. split; [|done].
    replace (length (lines log) + 0 - max_lines log) with 0 by lia. done.
  - unfold add_messages. simpl fold_left. fold (add_messages entries (add_message ts msg log)).
    assert (Hpos' : 0 < max_lines (add_message ts msg log)) by done.
    assert (Hlen' : length (lines (add_message ts msg log))
                    <= max_lines (add_message ts msg log))
      by exact (add_message_bounded ts msg log Hlen).
    destruct (IH (add_message ts msg log) Hpos' Hlen') as [Hlines Hmax].
    clear Hpos' Hlen'.
    + simpl in Hmax. split; [|done]. rewrite Hlines. clear Hlines IH.
      rewrite add_message_lines. simpl max_lines.
      destruct (Nat.ltb_spec (max_lines log)
                  (length (lines log ++ [log_line (ts, msg)]))) as [Hover|Hfit].
      * rewrite length_app in Hover. simpl in Hover.
        assert (Hfull : length (lines log) = max_lines log) by lia.
        assert (Htail : tail (lines log ++ [log_line (ts, msg)])
                        = drop 1 (lines log ++ [log_line (ts, msg)])).
        { by destruct (lines log ++ [log_line (ts, msg)]). }
        rewrite Htail, length_drop, length_app. simpl length.
        rewrite <- (drop_app_le _ _ 1) by (rewrite length_app; simpl; lia).
        rewrite drop_drop, <- app_assoc. simpl app. f_equal. lia.
      * rewrite length_app in *. simpl length in *.
        rewrite <- app_assoc. simpl app. f_equal. lia.
Qed.

(** X1. From the empty log of [DebugLog.__init__], after any sequence of
    [add_message] calls the log holds the lines of the most recent calls,
    oldest first, and never more than 1000 of them. *)
Theorem debug_log_keeps_latest (entries : list (string * text)) :
  lines (add_messages entries DebugLog_init)
  = drop (length entries - 1000) (map log_line entries)
  /\ length (lines (add_messages entries DebugLog_init))
     = Nat.min (length entries) 1000.
Proof.
  destruct (add_messages_lines entries DebugLog_init) as [Hlines _];
    [simpl; lia | simpl; lia |].
  simpl in Hlines. rewrite Hlines. split; [done|].
  rewrite length_drop, length_map. lia.
Qed.

End LogProperties.

(** ** More on the classifier *)

Lemma scan_table_In (table : list (string * string)) (code cat : string) :
  scan_table table code = Some cat -> exists p, In (p, cat) table.
Proof.
  induction table as [|[q c] table IH]; simpl; [discriminate|].
  destruct (startswith code q).
  - intros [= <-]. exists q. by left.
  - intros Hscan. destruct (IH Hscan) as [p Hp]. exists p. by right.
Qed.

(** Every category of the table has a label in [CATEGORIES]. *)
Lemma TYPE_TO_CATEGORY_values_declared (p cat : string) :
  In (p, cat) TYPE_TO_CATEGORY -> In cat (map fst CATEGORIES).
Proof.
  assert (Hall : forallb (fun pc => existsb (String.eqb (snd pc)) (map fst CATEGORIES))
                   TYPE_TO_CATEGORY = true) by (vm_compute; reflexivity).
  intros Hin. rewrite forallb_forall in Hall. specialize (Hall _ Hin).
  apply existsb_exists in Hall as (k & Hk & Heq).
  apply String.eqb_eq in Heq. simpl in Heq. by subst.
Qed.

(** In declaration order, an earlier prefix that can start the same code as
    a later one either has the same category or shadows "H60". *)
Lemma TYPE_TO_CATEGORY_shadowing (k i : nat) (pk ck pi ci : string) :
  k < i ->
  TYPE_TO_CATEGORY !! k = Some (pk, ck) ->
  TYPE_TO_CATEGORY !! i = Some (pi, ci) ->
  comparable pk pi = true ->
  ck = ci \/ pi = "H60".
Proof.
  intros Hki Hk Hi Hcmp.
  assert (Hall : forallb (fun i => forallb (fun k =>
              let a := nth k TYPE_TO_CATEGORY ("", "") in
              let b := nth i TYPE_TO_CATEGORY ("", "") in
              negb (Nat.ltb k i && comparable (fst a) (fst b))
              || String.eqb (snd a) (snd b) || String.eqb (fst b) "H60")
              (seq 0 (length TYPE_TO_CATEGORY))) (seq 0 (length TYPE_TO_CATEGORY))
            = true) by (vm_compute; reflexivity).
  assert (Hin : forall n x, TYPE_TO_CATEGORY !! n = Some x ->
            In n (seq 0 (length TYPE_TO_CATEGORY))
            /\ nth n TYPE_TO_CATEGORY ("", "") = x).
  { intros n x Hn. split.
    - apply in_seq. apply lookup_lt_Some in Hn. lia.
    - by apply nth_lookup_Some with (d := ("", "")) in Hn. }
  destruct (Hin _ _ Hk) as [Ik Ek], (Hin _ _ Hi) as [Ii Ei].
  rewrite forallb_forall in Hall. specialize (Hall i Ii).
  rewrite forallb_forall in Hall. specialize (Hall k Ik).
  cbv zeta in Hall. rewrite Ek, Ei in Hall. simpl fst in Hall. simpl snd in Hall.
  apply Nat.ltb_lt in Hki. rewrite Hki, Hcmp in Hall. simpl in Hall.
  apply orb_true_iff in Hall as [Heq|Heq]; apply String.eqb_eq in Heq; auto.
Qed.

Section ClassifierCoverage.
Context `{PyRuntime}.

Lemma entry_classifies (s : string) (i : nat) (p c : string) :
  s <> "" ->
  TYPE_TO_CATEGORY !! i = Some (p, c) ->
  p <> "H60" ->
  is_prefix p (upper s) ->
  map_type_to_category (Some s) = c.
Proof.
  intros Hs Hi Hp Hpre. destruct s as [|a s]; [done|].
  unfold map_type_to_category.
  destruct (scan_table TYPE_TO_CATEGORY (upper (String a s))) as [cat|] eqn:Hscan.
  - apply scan_table_Some in Hscan as (k & q & Hk & Hq & Hmin).
    destruct (lt_eq_lt_dec k i) as [[Hlt | -> ] | Hgt].
    + destruct (TYPE_TO_CATEGORY_shadowing k i q cat p c Hlt Hk Hi
                  (prefixes_comparable _ _ _ Hq Hpre)) as [Heq|Heq]; [done|].
      by destruct Hp.
    + congruence.
    + exfalso. by apply (Hmin i p c).
  - apply scan_table_None in Hscan. exfalso. by apply (Hscan i p c).
Qed.

Lemma map_type_to_category_In (icao_type : option string) :
  In (map_type_to_category icao_type) (map fst CATEGORIES).
Proof.
  assert (Hother : In "other" (map fst CATEGORIES)) by (simpl; tauto).
  destruct icao_type as [[|a s]|]; try exact Hother.
  unfold map_type_to_category.
  destruct (scan_table TYPE_TO_CATEGORY (upper (String a s))) as [cat|] eqn:Hscan;
    [|exact Hother].
  apply scan_table_In in Hscan as [p Hp].
  by apply TYPE_TO_CATEGORY_values_declared with p.
Qed.

(** X2. Whatever its input, [map_type_to_category] returns one of the ten
    keys of [CATEGORIES]: every aircraft falls under a filter checkbox. *)
Theorem category_is_declared (icao_type : option string) :
  In (map_type_to_category icao_type) (map fst CATEGORIES)
  /\ length (map fst CATEGORIES) = 10.
Proof. split; [apply map_type_to_category_In | reflexivity]. Qed.

(** X3. Every declared prefix other than "H60" is effective: a non-empty
    code whose uppercased form starts with it gets the category declared
    for that prefix. *)
Theorem declared_prefix_classifies (p c s : string) :
  In (p, c) TYPE_TO_CATEGORY ->
  p <> "H60" ->
  s <> "" ->
  is_prefix p (upper s) ->
  map_type_to_category (Some s) = c.
Proof.
  intros Hin Hp Hs Hpre.
  apply list_elem_of_In, list_elem_of_lookup in Hin as [i Hi].
  by apply entry_classifies with i p.
Qed.

(** X4. The entry "H60" (helicopter) is never reached: a code whose
    uppercased form starts with "H60" also starts with the earlier "H6"
    and is classified "bomber". *)
Theorem h60_codes_are_bombers (s : string) :
  s <> "" ->
  is_prefix "H60" (upper s) ->
  map_type_to_category (Some s) = "bomber"
  /\ map_type_to_category (Some s) <> "helicopter".
Proof.
  intros Hs [rest Hrest].
  assert (Hbomber : map_type_to_category (Some s) = "bomber").
  { apply entry_classifies with 26 "H6"; [done | reflexivity | discriminate |].
    exists ("0" +:+ rest). by rewrite Hrest. }
  split; [done|]. rewrite Hbomber. discriminate.
Qed.

End ClassifierCoverage.

(** ** The rows of the filter panel *)

Section ComposeProperties.

Lemma compose_rows_pair (a b : string * string) (rest : list (string * string)) :
  compose_rows (a :: b :: rest)
  = [checkbox_for a; checkbox_for b] :: compose_rows rest.
Proof.
  unfold compose_rows, py_range. simpl length.
  rewrite !Nat.sub_0_r. change (2 - 1) with 1.
  replace (S (S (length rest)) + 1) with (length rest + 1 + 1 * 2) by lia.
  rewrite Nat.div_add by lia.
  set (m := (length rest + 1) / 2). rewrite Nat.add_1_r.
  rewrite <- cons_seq, <- seq_shift, !map_cons, !map_map.
  (* index [S k * 2] of [a :: b :: rest] is index [k * 2] of [rest] *)
  reflexivity.
Qed.

Lemma compose_rows_shape (n : nat) (items : list (string * string)) :
  length items <= n ->
  concat (compose_rows items) = map checkbox_for items
  /\ Forall (fun row => 1 <= length row <= 2) (compose_rows items)
  /\ length (compose_rows items) = (length items + 1) / 2.
Proof.
  revert items. induction n as [|n IH]; intros items Hlen.
  - destruct items; [|simpl in Hlen; lia]. repeat split. constructor.
  - destruct items as [|a [|b rest]].
    + repeat split. constructor.
    + repeat split. repeat constructor.
    + destruct (IH rest) as (Hcat & Hrows & Hcount); [simpl in Hlen; lia|].
      rewrite compose_rows_pair. simpl concat. simpl map. rewrite Hcat.
      repeat split.
      * constructor; [simpl; lia | done].
      * simpl length. rewrite Hcount.
        replace (S (S (length rest)) + 1) with (length rest + 1 + 1 * 2) by lia.
        rewrite Nat.div_add by lia. lia.
Qed.

(** Row [i] holds items [2 i] and [2 i + 1], or item [2 i] alone when it is
    the last item. *)
Lemma compose_rows_row_length (n : nat) (items : list (string * string))
    (i : nat) (row : list Checkbox) :
  length items <= n ->
  compose_rows items !! i = Some row ->
  length row = if Nat.ltb (2 * i + 1) (length items) then 2 else 1.
Proof.
  revert items i. induction n as [|n IH]; intros items i Hlen Hrow.
  - destruct items; [|simpl in Hlen; lia]. by destruct i.
  - destruct items as [|a [|b rest]].
    + by destruct i.
    + destruct i as [|i]; [|by destruct i]. by injection Hrow as <-.
    + rewrite compose_rows_pair in Hrow. destruct i as [|i].
      * by injection Hrow as <-.
      * simpl in Hrow. rewrite (IH rest i); [|simpl in Hlen; lia | done].
        simpl length.
        destruct (Nat.ltb_spec (2 * i + 1) (length rest));
          destruct (Nat.ltb_spec (2 * S i + 1) (S (S (length rest)))); lia.
Qed.

(** X5. The rows [compose] builds hold one checkbox per item, in the order
    of the items, each row with two checkboxes except a last row of one for
    an odd number of items; every checkbox starts ticked. *)
Theorem compose_rows_cover_items (items : list (string * string)) :
  concat (compose_rows items) = map checkbox_for items
  /\ Forall (fun row => 1 <= length row <= 2) (compose_rows items)
  /\ length (compose_rows items) = (length items + 1) / 2
  /\ Forall (fun box => cb_value box = true) (concat (compose_rows items))
  /\ (forall i row, compose_rows items !! i = Some row ->
        length row = if Nat.ltb (2 * i + 1) (length items) then 2 else 1)
  /\ (forall i row, compose_rows items !! i = Some row ->
        S i < length (compose_rows items) -> length row = 2).
Proof.
  destruct (compose_rows_shape (length items) items (le_n _))
    as (Hcat & Hrows & Hcount).
  assert (Hrow : forall i row, compose_rows items !! i = Some row ->
            length row = if Nat.ltb (2 * i + 1) (length items) then 2 else 1)
    by (intros i row; apply (compose_rows_row_length (length items)); lia).
  split; [done|]. split; [done|]. split; [done|].
  split; [rewrite Hcat; apply Forall_fmap, Forall_forall; done|].
  split; [exact Hrow|].
  intros i row Hi Hnext. rewrite (Hrow i row Hi). rewrite Hcount in Hnext.
  destruct (Nat.ltb_spec (2 * i + 1) (length items)) as [|Hge]; [done|].
  exfalso.
  assert ((length items + 1) / 2 <= S i); [|lia].
  apply Nat.Div0.div_le_upper_bound. lia.
Qed.

End ComposeProperties.

(** ** Ticking and unticking a filter *)

Section ToggleProperties.

(** Membership in a set built with union, difference and singletons. *)
Ltac membership :=
  rewrite ?elem_of_union, ?elem_of_difference, ?elem_of_singleton;
  intuition congruence.

(** The active set after [on_checkbox_changed]. *)
Lemma on_checkbox_changed_active (checkbox_id : string) (value : bool)
    (panel : FilterPanel) (objs : store) :
  deref (on_checkbox_changed checkbox_id value panel objs).1 (active_filters panel)
  = if value
    then deref objs (active_filters panel) ∪ {[remove_all "filter_" 0 checkbox_id]}
    else deref objs (active_filters panel) ∖ {[remove_all "filter_" 0 checkbox_id]}.
Proof.
  unfold on_checkbox_changed, set_add, set_discard. simpl.
  destruct value; by rewrite deref_insert.
Qed.

(** The id [compose] gives the checkbox of a category reads back as the
    key of that category. *)
Lemma checkbox_id_reads_back (item : string * string) :
  In item CATEGORIES ->
  remove_all "filter_" 0 (cb_id (checkbox_for item)) = fst item.
Proof.
  intros Hin. simpl in Hin.
  repeat (destruct Hin as [<- | Hin]; [reflexivity|]). done.
Qed.

(** X6. A change of the checkbox that [compose] made for a category puts
    that category in the active set when ticked and takes it out when
    unticked; the membership of every other category and every other object
    of the store stay as they were. *)
Theorem checkbox_toggles_its_category (item : string * string) (value : bool)
    (panel : FilterPanel) (objs : store) (other : string) (b : addr) :
  In item CATEGORIES ->
  let a := active_filters panel in
  let objs' := (on_checkbox_changed (cb_id (checkbox_for item)) value panel objs).1 in
  (fst item ∈ deref objs' a <-> value = true)
  /\ (other <> fst item -> (other ∈ deref objs' a <-> other ∈ deref objs a))
  /\ (b <> a -> objs' !! b = objs !! b).
Proof.
  intros Hin a objs'. subst a objs'.
  rewrite on_checkbox_changed_active, (checkbox_id_reads_back item Hin).
  repeat split.
  - destruct value; [done | membership].
  - destruct value; [membership | done].
  - destruct value; membership.
  - destruct value; membership.
  - intros Hb. unfold on_checkbox_changed, set_add, set_discard. simpl.
    destruct value; by apply lookup_insert_ne.
Qed.

(** X7. Unticking a checkbox and ticking it again restores the active set
    when its category was active; a repeated change with the same value
    changes nothing the second time. *)
Theorem toggle_round_trip (checkbox_id : string) (value : bool)
    (panel : FilterPanel) (objs : store) :
  let a := active_filters panel in
  let change v o := (on_checkbox_changed checkbox_id v panel o).1 in
  (remove_all "filter_" 0 checkbox_id ∈ deref objs a ->
   deref (change true (change false objs)) a = deref objs a)
  /\ deref (change value (change value objs)) a = deref (change value objs) a.
Proof.
  intros a change. subst a change. cbv beta.
  rewrite !on_checkbox_changed_active. split.
  - intros Hactive. apply set_eq. intros x. rewrite elem_of_union, elem_of_difference.
    rewrite elem_of_singleton.
    destruct (decide (x = remove_all "filter_" 0 checkbox_id)) as [->|]; tauto.
  - destruct value; apply set_eq; intros x; membership.
Qed.

End ToggleProperties.

(** ** A successful fetch *)

Section FetchSuccess.
Context `{PyRuntime}.

Lemma for_each_Forall2 {A B : Type} (f : A -> result B) (xs : list A) (ys : list B) :
  for_each f xs = Ok ys <-> Forall2 (fun x y => f x = Ok y) xs ys.
Proof.
  revert ys. induction xs as [|x xs IH]; intros ys; simpl.
  - split.
    + intros [= <-]. constructor.
    + intros Hall. by inversion Hall.
  - destruct (f x) as [y|e] eqn:Hx; simpl.
    + destruct (for_each f xs) as [ys'|e] eqn:Hrest; simpl.
      * split.
        -- intros [= <-]. constructor; [done | by apply IH].
        -- intros Hall. inversion Hall as [|x0 y0 xs0 ys0 Hy Hys]; subst.
           apply IH in Hys. congruence.
      * split; [discriminate|].
        intros Hall. inversion Hall as [|x0 y0 xs0 ys0 Hy Hys]; subst.
        apply IH in Hys. discriminate.
    + split; [discriminate|].
      intros Hall. inversion Hall as [|x0 y0 xs0 ys0 Hy Hys]; subst. congruence.
Qed.



(** The string a defaulted field yields is never empty. *)
Lemma as_str_or_nonempty (v : pyval) (default attr s : string) :
  default <> "" ->
  as_str (py_or v (VStr default)) attr = Ok s ->
  s <> "".
Proof.
  intros Hdefault. unfold py_or. destruct (truthy v) eqn:Htruthy.
  - destruct v; simpl; try discriminate. intros [= <-].
    simpl in Htruthy. apply negb_true_iff in Htruthy. by apply String.eqb_neq.
  - simpl. by intros [= <-].
Qed.

Lemma truthy_or (v default : pyval) :
  truthy default = true -> truthy (py_or v default) = true.
Proof. intros Hd. unfold py_or. by destruct (truthy v) eqn:Hv. Qed.

Lemma build_aircraft_category (entry : pyval) (ac : MilitaryAircraft) :
  build_aircraft entry = Ok ac -> In (category ac) (map fst CATEGORIES).
Proof.
  intros Hbuild. destruct entry; try discriminate.
  destruct (build_aircraft_Ok items ac Hbuild)
    as (flight_str & icao_str & _ & _ & _ & _ & _ & _ & _ & _ & ->).
  apply map_type_to_category_In.
Qed.

(** X10. Every record built from a feed entry has a non-empty type code,
    stored as the feed spelled it and "UNKNOWN" when the entry has none, a
    truthy owner, "Unknown" when the entry has none, and a category that
    [CATEGORIES] lists. *)
Theorem build_aircraft_fields (entry : list (string * pyval))
    (ac : MilitaryAircraft) :
  build_aircraft (VDict entry) = Ok ac ->
  aircraft_type ac <> ""
  /\ truthy (owner ac) = true
  /\ In (category ac) (map fst CATEGORIES)
  /\ (assoc_get "t" entry = None -> aircraft_type ac = "UNKNOWN")
  /\ (forall s, assoc_get "t" entry = Some (VStr s) -> s <> "" ->
                aircraft_type ac = s)
  /\ (assoc_get "owner" entry = None -> owner ac = VStr "Unknown")
  /\ (forall v, assoc_get "owner" entry = Some v -> truthy v = true ->
                owner ac = v).
Proof.
  intros Hbuild.
  pose proof (build_aircraft_category _ _ Hbuild) as Hcat.
  destruct (build_aircraft_Ok entry ac Hbuild)
    as (flight_str & icao_str & _ & Htype & _ & _ & _ & _ & -> & -> & _).
  repeat split.
  - apply (as_str_or_nonempty (field entry "t") "UNKNOWN" "upper");
      [discriminate | done].
  - by apply truthy_or.
  - done.
  - intros Hg. rewrite (field_absent _ _ Hg) in Htype. simpl in Htype. congruence.
  - intros s Hg Hs. rewrite (field_present _ _ _ Hg) in Htype.
    unfold py_or in Htype. rewrite (truthy_nonempty_str s Hs) in Htype.
    simpl in Htype. congruence.
  - intros Hg. by rewrite (field_absent _ _ Hg).
  - intros v Hg Hv. rewrite (field_present _ _ _ Hg). unfold py_or. by rewrite Hv.
Qed.

Lemma binary_round_aux_not_negative (mx ex : Z) (lx : location) :
  float_ltb (binary_round_aux 53 1024 false mx ex lx) float_zero = false.
Proof.
  unfold binary_round_aux.
  destruct (shr_fexp 53 1024 mx ex lx) as [mrs e].
  destruct (shr_fexp 53 1024 _ e loc_Exact) as [mrs' e'].
  destruct (shr_m mrs'); [reflexivity | | reflexivity].
  by destruct (Z.leb e' (1024 - 53)).
Qed.

Lemma float_of_int_not_negative (z : Z) (x : pyfloat) :
  (0 <= z)%Z -> float_of_int z = Ok x -> float_ltb x float_zero = false.
Proof.
  intros Hz. unfold float_of_int.
  assert (Hsign : float_ltb (binary_normalize 53 1024 z 0 false) float_zero = false).
  { destruct z as [|p|p]; [reflexivity | | lia].
    unfold binary_normalize, binary_round.
    destruct (shl_align p 0 _) as [mz ez]. apply binary_round_aux_not_negative. }
  destruct (binary_normalize 53 1024 z 0 false); intros [= <-]; exact Hsign.
Qed.

Lemma py_float_int_not_negative (z : Z) (x : pyfloat) :
  (0 <= z)%Z -> py_float (py_or (VInt z) (VInt 0)) = Ok x ->
  float_ltb x float_zero = false.
Proof.
  intros Hz. unfold py_or. simpl truthy.
  destruct (negb (z =? 0)%Z); simpl; apply float_of_int_not_negative; lia.
Qed.

(** X11. A non-negative integer in [alt_baro], [gs] or [track] is never
    stored as a value below zero. *)
Theorem nonnegative_integers_stay_nonnegative (entry : list (string * pyval))
    (ac : MilitaryAircraft) (z : Z) :
  build_aircraft (VDict entry) = Ok ac ->
  (0 <= z)%Z ->
  (assoc_get "alt_baro" entry = Some (VInt z) ->
   float_ltb (altitude ac) float_zero = false)
  /\ (assoc_get "gs" entry = Some (VInt z) ->
      float_ltb (speed ac) float_zero = false)
  /\ (assoc_get "track" entry = Some (VInt z) ->
      float_ltb (heading ac) float_zero = false).
Proof.
  intros Hbuild Hz.
  destruct (build_aircraft_Ok entry ac Hbuild)
    as (flight_str & icao_str & _ & _ & Halt & Hspd & Hhdg & _).
  repeat split; intros Hg.
  - rewrite (field_present _ _ _ Hg) in Halt. simpl is_ground in Halt.
    cbv iota in Halt. by apply (py_float_int_not_negative z).
  - rewrite (field_present _ _ _ Hg) in Hspd. by apply (py_float_int_not_negative z).
  - rewrite (field_present _ _ _ Hg) in Hhdg. by apply (py_float_int_not_negative z).
Qed.

End FetchSuccess.

(** ** What the views show *)

Section ViewConsistency.

(** The text [update_alerts] hands to the widget is the placeholder
    exactly when no record of the snapshot is an airborne fighter or
    bomber. *)
Lemma update_alerts_placeholder (app : MilitaryMonitor) :
  alerts_content (update_alerts app) = no_alerts
  <-> filter airborne_offensive (aircraft_data app) = [].
Proof.
  unfold update_alerts. simpl. rewrite offensive_alerts_filter.
  destruct (filter airborne_offensive (aircraft_data app)) as [|ac rest].
  - done.
  - split; [|discriminate]. simpl. unfold no_alerts.
    destruct (list_fmap _ _ alert_line rest); [unfold alert_line|]; discriminate.
Qed.

(** X13. The table shows "Ground" as the altitude of a record exactly when
    its altitude equals zero, and such a record has no alert line, whatever
    its category. *)
Theorem ground_rows_raise_no_alert (ac : MilitaryAircraft) :
  (cell_altitude (row_of ac) = [Lit "Ground"]
   <-> float_eqb (altitude ac) float_zero = true)
  /\ (cell_altitude (row_of ac) = [Lit "Ground"] -> offensive_alerts [ac] = []).
Proof.
  assert (Hcell : cell_altitude (row_of ac) = [Lit "Ground"]
                  <-> float_eqb (altitude ac) float_zero = true).
  { unfold row_of. simpl.
    destruct (float_eqb (altitude ac) float_zero); split; done. }
  split; [done|]. intros Hground. apply Hcell in Hground.
  unfold offensive_alerts. simpl.
  rewrite (zero_altitude_not_above _ Hground). by rewrite andb_false_r.
Qed.

Lemma add_message_last (timestamp : string) (message : text) (log : DebugLog) :
  0 < max_lines log ->
  last (lines (add_message timestamp message log))
  = Some (log_line (timestamp, message)).
Proof.
  intros Hpos. rewrite add_message_lines.
  destruct (Nat.ltb_spec (max_lines log)
              (length (lines log ++ [log_line (timestamp, message)]))) as [Hover|Hfit].
  - rewrite length_app in Hover. simpl in Hover.
    destruct (lines log) as [|first rest]; [simpl in Hover; lia|].
    simpl. apply last_snoc.
  - apply last_snoc.
Qed.

(** X14. The number [update_aircraft_table] reports in the log as
    displayed is the number of rows it has put in the table. *)
Theorem displayed_count_matches_table (timestamp : string) (app : MilitaryMonitor) :
  0 < max_lines (debug_log app) ->
  last (lines (debug_log (update_aircraft_table timestamp app)))
  = Some (log_line (timestamp,
            [Lit "Displaying ";
             Count (length (table (update_aircraft_table timestamp app)));
             Lit " aircraft"])).
Proof.
  intros Hpos. rewrite update_aircraft_table_rows, length_fmap.
  assert (Hlog : debug_log (update_aircraft_table timestamp app)
                 = add_message timestamp
                     [Lit "Displaying ";
                      Count (length (filtered_by
                                       (deref (objs app) (active_filters (filter_panel app)))
                                       (aircraft_data app)));
                      Lit " aircraft"]
                     (debug_log app)) by reflexivity.
  rewrite Hlog, (add_message_last _ _ _ Hpos). by rewrite filtered_by_filter.
Qed.

End ViewConsistency.

(** ** The application between events *)

Section Coherence.
Context `{PyRuntime} `{Textual}.

Lemma log_message_coherent (timestamp : string) (message : text)
    (app : MilitaryMonitor) :
  coherent app -> coherent (log_message timestamp message app).
Proof.
  intros (Htable & Halerts & [Hmax Hlen] & Hcats).
  repeat split; try done. simpl.
  pose proof (add_message_bounded timestamp message (debug_log app)) as Hb.
  rewrite Hmax in Hb. apply Hb. lia.
Qed.

Lemma log_message_bound (timestamp : string) (message : text)
    (app : MilitaryMonitor) :
  log_within_bound app -> log_within_bound (log_message timestamp message app).
Proof.
  intros [Hmax Hlen]. split; [done|]. simpl.
  pose proof (add_message_bounded timestamp message (debug_log app)) as Hb.
  rewrite Hmax in Hb. apply Hb. lia.
Qed.

(** Recomputing both views makes them agree with the snapshot. *)
Lemma views_coherent (timestamp : string) (app : MilitaryMonitor) :
  log_within_bound app -> categories_declared app ->
  coherent (update_alerts (update_aircraft_table timestamp app)).
Proof.
  intros Hlog Hcats. unfold coherent. split; [|split; [|split]].
  - change (table (update_alerts (update_aircraft_table timestamp app)))
      with (table (update_aircraft_table timestamp app)).
    by rewrite update_aircraft_table_rows.
  - unfold update_alerts. simpl. by rewrite offensive_alerts_filter.
  - apply (log_message_bound _ _ (set_table _ app)). exact Hlog.
  - exact Hcats.
Qed.

(** The records of a feed that converts have declared categories. *)
Lemma read_feed_categories (fetched : result pyval)
    (new_aircraft : list MilitaryAircraft) (count : nat) :
  fetched ≫= read_feed = Ok (new_aircraft, count) ->
  Forall (fun ac => In (category ac) (map fst CATEGORIES)) new_aircraft.
Proof.
  intros Hfetch. destruct fetched as [data|e]; [|discriminate]. simpl in Hfetch.
  unfold read_feed in Hfetch.
  apply bind_Ok in Hfetch as (ac_list & _ & Hfetch).
  apply bind_Ok in Hfetch as (entries & _ & Hfetch).
  apply bind_Ok in Hfetch as (built & Hbuilt & Hfetch).
  injection Hfetch as <- _.
  apply for_each_Forall2 in Hbuilt.
  induction Hbuilt as [|entry ac entries built Hentry _ IH]; constructor.
  - by apply build_aircraft_category with entry.
  - exact IH.
Qed.


(** A log call ends in one of two ways, with the same lines written. *)
Lemma log_message_run_cases (timestamp : string) (message : text)
    (app : MilitaryMonitor) :
  log_message_run timestamp message app = Done (log_message timestamp message app)
  \/ log_message_run timestamp message app
     = Raised MarkupError (log_message timestamp message app).
Proof.
  unfold log_message_run, add_message_run.
  destruct (markup_ok _); [by left | by right].
Qed.

Lemma update_aircraft_table_run_cases (timestamp : string) (app : MilitaryMonitor) :
  update_aircraft_table_run timestamp app
  = Done (update_aircraft_table timestamp app)
  \/ update_aircraft_table_run timestamp app
     = Raised MarkupError (update_aircraft_table timestamp app).
Proof. apply log_message_run_cases. Qed.

Lemma update_alerts_run_cases (app : MilitaryMonitor) :
  update_alerts_run app = Done (update_alerts app)
  \/ update_alerts_run app = Raised MarkupError app.
Proof.
  unfold update_alerts_run. destruct (markup_ok _); [by left | by right].
Qed.

Lemma log_message_run_kept (timestamp : string) (message : text)
    (app : MilitaryMonitor) :
  log_within_bound app -> categories_declared app ->
  kept (log_message_run timestamp message app).
Proof.
  intros Hlog Hcats.
  pose proof (log_message_bound timestamp message app Hlog) as Hlog'.
  destruct (log_message_run_cases timestamp message app) as [-> | ->]; simpl; auto.
Qed.

Lemma kept_and_then (first : outcome MilitaryMonitor)
    (next : MilitaryMonitor -> outcome MilitaryMonitor) :
  kept first ->
  (forall app, log_within_bound app -> categories_declared app -> kept (next app)) ->
  kept (and_then first next).
Proof.
  intros Hfirst Hnext. destruct first as [app|e app]; simpl in *.
  - destruct Hfirst. by apply Hnext.
  - exact Hfirst.
Qed.

Lemma settled_and_then (first : outcome MilitaryMonitor)
    (next : MilitaryMonitor -> outcome MilitaryMonitor) :
  kept first ->
  (forall app, log_within_bound app -> categories_declared app ->
               settled (next app)) ->
  settled (and_then first next).
Proof.
  intros Hfirst Hnext. destruct first as [app|e app]; simpl in *.
  - destruct Hfirst. by apply Hnext.
  - exact Hfirst.
Qed.

Lemma fetch_aircraft_data_run_kept (t_fetched t_error : string)
    (fetched : result pyval) (app : MilitaryMonitor) :
  log_within_bound app -> categories_declared app ->
  kept (fetch_aircraft_data_run t_fetched t_error fetched app).
Proof.
  intros Hlog Hcats. unfold fetch_aircraft_data_run.
  assert (Hexcept : forall e app1,
            log_within_bound app1 -> categories_declared app1 ->
            kept match log_message_run t_error [Lit "API Error: "; ExnText e] app1 with
                 | Done app2 => Done (set_aircraft_data [] app2)
                 | Raised e' app2 => Raised e' app2
                 end).
  { intros e app1 Hlog1 Hcats1.
    pose proof (log_message_bound t_error [Lit "API Error: "; ExnText e] app1 Hlog1)
      as [Hmax Hlen].
    destruct (log_message_run_cases t_error [Lit "API Error: "; ExnText e] app1)
      as [-> | ->]; simpl; repeat split; try done. constructor. }
  destruct (fetched ≫= read_feed) as [[new_aircraft count]|e] eqn:Hfetch.
  - pose proof (read_feed_categories _ _ _ Hfetch) as Hnew.
    set (app1 := set_aircraft_data new_aircraft app).
    assert (Hlog1 : log_within_bound app1) by exact Hlog.
    pose proof (log_message_bound t_fetched
                  [Lit "Fetched "; Count count; Lit " military aircraft"]
                  app1 Hlog1) as Hlog2.
    destruct (log_message_run_cases t_fetched
                [Lit "Fetched "; Count count; Lit " military aircraft"] app1)
      as [-> | ->].
    + simpl. split; [exact Hlog2 | exact Hnew].
    + apply Hexcept; [exact Hlog2 | exact Hnew].
  - by apply Hexcept.
Qed.

Lemma views_run_settled (timestamp : string) (app : MilitaryMonitor) :
  log_within_bound app -> categories_declared app ->
  settled (and_then (update_aircraft_table_run timestamp app) update_alerts_run).
Proof.
  intros Hlog Hcats.
  pose proof (views_coherent timestamp app Hlog Hcats) as Hco.
  assert (Hlog' : log_within_bound (update_aircraft_table timestamp app))
    by (apply (log_message_bound _ _ (set_table _ app)); exact Hlog).
  destruct (update_aircraft_table_run_cases timestamp app) as [-> | ->]; simpl.
  - destruct (update_alerts_run_cases (update_aircraft_table timestamp app))
      as [-> | ->]; simpl; auto.
  - auto.
Qed.

Lemma fetch_and_update_run_settled (t_fetched t_error t_table t_done : string)
    (fetched : result pyval) (app : MilitaryMonitor) :
  log_within_bound app -> categories_declared app ->
  settled (fetch_and_update_run t_fetched t_error t_table t_done fetched app).
Proof.
  intros Hlog Hcats. unfold fetch_and_update_run.
  apply settled_and_then; [by apply fetch_aircraft_data_run_kept|].
  intros app1 Hlog1 Hcats1.
  pose proof (views_coherent t_table app1 Hlog1 Hcats1) as Hco.
  assert (Hlog2 : log_within_bound (update_aircraft_table t_table app1))
    by (apply (log_message_bound _ _ (set_table _ app1)); exact Hlog1).
  destruct (update_aircraft_table_run_cases t_table app1) as [-> | ->]; simpl;
    [|auto].
  destruct (update_alerts_run_cases (update_aircraft_table t_table app1))
    as [-> | ->]; simpl; [|auto].
  pose proof (log_message_coherent t_done [Lit "Data refreshed."] _ Hco) as Hco'.
  destruct (log_message_run_cases t_done [Lit "Data refreshed."]
              (update_alerts (update_aircraft_table t_table app1)))
    as [-> | ->]; simpl; [exact Hco'|].
  destruct Hco' as (_ & _ & Hlog3 & Hcats3). auto.
Qed.

Lemma handle_settled (ev : event) (app : MilitaryMonitor) :
  coherent app -> settled (handle ev app).
Proof.
  intros Hco. pose proof Hco as (_ & _ & Hlog & Hcats).
  destruct ev as [now t1 t2 t3 t4 t5 t6 fetched | t3 t4 t5 t6 fetched
                 | t1 t3 t4 t5 t6 fetched | ts | checkbox_id value t1 t2]; simpl.
  - unfold on_mount_run.
    apply settled_and_then; [by apply log_message_run_kept|].
    intros app1 Hlog1 Hcats1.
    apply settled_and_then; [by apply log_message_run_kept|].
    intros app2 Hlog2 Hcats2.
    by apply fetch_and_update_run_settled.
  - by apply fetch_and_update_run_settled.
  - unfold action_refresh_now_run.
    apply settled_and_then; [by apply log_message_run_kept|].
    intros app1 Hlog1 Hcats1. by apply fetch_and_update_run_settled.
  - unfold action_clear_debug_run.
    set (cleared := set_debug_log _ app).
    assert (Hcleared : coherent cleared).
    { destruct Hco as (Htable & Halerts & [Hmax Hlen] & _).
      repeat split; try done. simpl. lia. }
    destruct (markup_ok []).
    + pose proof (log_message_coherent ts [Lit "Debug log cleared"] _ Hcleared)
        as Hco'.
      destruct (log_message_run_cases ts [Lit "Debug log cleared"] cleared)
        as [-> | ->]; simpl; [exact Hco'|].
      destruct Hco' as (_ & _ & Hlog' & Hcats'). auto.
    + destruct Hcleared as (_ & _ & Hlog' & Hcats'). simpl. auto.
  - unfold on_filter_panel_filters_changed_run.
    apply settled_and_then.
    + apply log_message_run_kept; [exact Hlog | exact Hcats].
    + intros app1 Hlog1 Hcats1. by apply views_run_settled.
Qed.

Lemma MilitaryMonitor_init_coherent : coherent MilitaryMonitor_init.
Proof.
  repeat split; try done.
  - simpl. lia.
  - constructor.
Qed.

Lemma run_settled (events : list event) (app : MilitaryMonitor) :
  coherent app -> settled (run events app).
Proof.
  revert app. induction events as [|ev events IH]; intros app Hco; simpl.
  - exact Hco.
  - pose proof (handle_settled ev app Hco) as Hev.
    destruct (handle ev app) as [app'|e app']; simpl in *; [by apply IH | exact Hev].
Qed.

(** X15. Over any sequence of events from the initial state (mount, timer
    ticks, manual refreshes, log clearing, checkbox changes): when every
    handler returns, the table holds the rows of the snapshot records whose
    category is in the active filter set, the alerts area shows the airborne
    fighters and bombers of the snapshot or the placeholder, the log has at
    most 1000 lines and every record has a declared category. Otherwise the
    run has ended with a MarkupError that left a handler, the log still
    within 1000 lines and the categories declared. *)
Theorem run_keeps_coherent (events : list event) :
  match run events MilitaryMonitor_init with
  | Done app => coherent app
  | Raised e app =>
      e = MarkupError /\ log_within_bound app /\ categories_declared app
  end.
Proof. exact (run_settled events _ MilitaryMonitor_init_coherent). Qed.

End Coherence.

(** ** Calls that a widget makes raise *)

Section RaisingCalls.
Context `{Textual}.

(** A fetch that fails logs the error first and clears the snapshot only
    after the log call has returned. *)
Lemma failed_fetch_run `{PyRuntime} (t_fetched t_error : string)
    (fetched : result pyval) (e : pyexn) (app : MilitaryMonitor) :
  fetched ≫= read_feed = Raise e ->
  fetch_aircraft_data_run t_fetched t_error fetched app
  = (if markup_ok (join_lines (lines (debug_log
          (log_message t_error [Lit "API Error: "; ExnText e] app))))
     then Done (set_aircraft_data []
                  (log_message t_error [Lit "API Error: "; ExnText e] app))
     else Raised MarkupError
            (log_message t_error [Lit "API Error: "; ExnText e] app)).
Proof.
  intros Hfetch. unfold fetch_aircraft_data_run. rewrite Hfetch.
  unfold log_message_run, add_message_run. simpl.
  by destruct (markup_ok _).
Qed.

(** C3 on the code, at a feed whose record has the altitude "[/b]".
    [float] rejects the string, and the [except] block logs
    "API Error: ..." with the string in it before it clears the snapshot.
    When the log widget refuses that line the exception leaves
    [fetch_aircraft_data] and the snapshot is the one from before the
    fetch; it is cleared only when the widget accepts the line. With the
    markup check for plain text the line is refused: a snapshot of one
    record is still there after the failed fetch, and the exception leaves
    the timer's callback, [fetch_and_update], with the table and the alerts
    not recomputed. *)
Theorem failed_fetch_keeps_snapshot_when_log_refused (t_fetched t_error : string)
    (app : MilitaryMonitor) :
  let fetched := Ok (VDict feed_markup_altitude) in
  let logged :=
    log_message t_error [Lit "API Error: "; ExnText (ValueError "[/b]")] app in
  let before := set_aircraft_data [record_anonymous] MilitaryMonitor_init in
  @fetch_aircraft_data_run ascii_runtime _ t_fetched t_error fetched app
  = (if markup_ok (join_lines (lines (debug_log logged)))
     then Done (set_aircraft_data [] logged)
     else Raised MarkupError logged)
  /\ aircraft_data logged = aircraft_data app
  /\ @fetch_aircraft_data_run ascii_runtime plain_text_markup
       "12:00:00" "12:00:00" fetched before
     = Raised MarkupError
         (log_message "12:00:00"
            [Lit "API Error: "; ExnText (ValueError "[/b]")] before)
  /\ aircraft_data
       (log_message "12:00:00"
          [Lit "API Error: "; ExnText (ValueError "[/b]")] before)
     = [record_anonymous]
  /\ @handle ascii_runtime plain_text_markup
       (TimerTick "12:00:00" "12:00:00" "12:00:01" "12:00:02" fetched) before
     = Raised MarkupError
         (log_message "12:00:00"
            [Lit "API Error: "; ExnText (ValueError "[/b]")] before).
Proof.
  cbv zeta. split; [|split; [|split; [|split]]].
  - by apply (@failed_fetch_run ascii_runtime).
  - reflexivity.
  - vm_compute. reflexivity.
  - reflexivity.
  - vm_compute. reflexivity.
Qed.

(** X12. [update_alerts] either shows its text or raises a MarkupError and
    leaves the application as it was. When it returns, the alerts area
    shows the placeholder exactly when no record of the snapshot is an
    airborne fighter or bomber; it raises exactly when the widget refuses
    the text of the alert lines (or of the placeholder). *)
Theorem placeholder_iff_no_alerts (app : MilitaryMonitor) :
  let content :=
    alerts_text (alert_line <$> filter airborne_offensive (aircraft_data app)) in
  match update_alerts_run app with
  | Done app' =>
      markup_ok content = true
      /\ app' = update_alerts app
      /\ (alerts_content app' = no_alerts
          <-> filter airborne_offensive (aircraft_data app) = [])
  | Raised e app' =>
      markup_ok content = false /\ e = MarkupError /\ app' = app
  end.
Proof.
  cbv zeta. unfold update_alerts_run. rewrite offensive_alerts_filter.
  destruct (markup_ok _) eqn:Hok.
  - split; [done|]. split.
    + unfold update_alerts. by rewrite offensive_alerts_filter.
    + rewrite <- (update_alerts_placeholder app). unfold update_alerts.
      by rewrite offensive_alerts_filter.
  - done.
Qed.

(** The newest lines of a log after a run of calls that ends with them,
    when the log has room for them. *)
Lemma add_messages_newest (earlier newest : list (string * text)) (log : DebugLog) :
  0 < max_lines log ->
  length newest <= max_lines log ->
  length (lines log) <= max_lines log ->
  exists older,
    lines (add_messages (earlier ++ newest) log) = older ++ map log_line newest.
Proof.
  intros Hpos Hroom Hlen.
  destruct (add_messages_lines (earlier ++ newest) log Hpos Hlen) as [-> _].
  rewrite map_app, app_assoc, length_app.
  eexists. apply drop_app_le. rewrite length_app, length_map. lia.
Qed.

(** X16. A refresh that returns has logged, as the last three lines of a
    log with room for three: the outcome of the fetch, then
    "Displaying n aircraft" with n the number of table rows, then
    "Data refreshed.". The outcome is "Fetched n ..." with the fetched
    records as the snapshot, or "API Error: ..." with an empty snapshot:
    the error of the request or of the conversion, or the MarkupError of
    the "Fetched" log call. So "Data refreshed." is logged also after a
    failed fetch. A refresh that does not return was left by a
    MarkupError. *)
Theorem refresh_logs_three_lines `{PyRuntime}
    (t_fetched t_error t_table t_done : string)
    (fetched : result pyval) (app : MilitaryMonitor) :
  3 <= max_lines (debug_log app) ->
  length (lines (debug_log app)) <= max_lines (debug_log app) ->
  match fetch_and_update_run t_fetched t_error t_table t_done fetched app with
  | Done app' =>
      exists older outcome,
        lines (debug_log app')
        = older ++ [log_line outcome;
                    log_line (t_table,
                      [Lit "Displaying "; Count (length (table app'));
                       Lit " aircraft"]);
                    log_line (t_done, [Lit "Data refreshed."])]
        /\ match fetched ≫= read_feed with
           | Ok (new_aircraft, count) =>
               (outcome = (t_fetched,
                           [Lit "Fetched "; Count count; Lit " military aircraft"])
                /\ aircraft_data app' = new_aircraft)
               \/ (outcome = (t_error, [Lit "API Error: "; ExnText MarkupError])
                   /\ aircraft_data app' = [])
           | Raise e =>
               outcome = (t_error, [Lit "API Error: "; ExnText e])
               /\ aircraft_data app' = []
           end
  | Raised err app' => err = MarkupError
  end.
Proof.
  intros Hroom Hlen.
  assert (Hpos : 0 < max_lines (debug_log app)) by lia.
  assert (Hviews : forall app1 earlier outcome,
            debug_log app1 = add_messages (earlier ++ [outcome]) (debug_log app) ->
            match and_then (update_aircraft_table_run t_table app1) (fun app2 =>
                  and_then (update_alerts_run app2) (fun app3 =>
                  log_message_run t_done [Lit "Data refreshed."] app3)) with
            | Done app' =>
                (exists older,
                   lines (debug_log app')
                   = older ++ [log_line outcome;
                               log_line (t_table,
                                 [Lit "Displaying "; Count (length (table app'));
                                  Lit " aircraft"]);
                               log_line (t_done, [Lit "Data refreshed."])])
                /\ aircraft_data app' = aircraft_data app1
            | Raised err app' => err = MarkupError
            end).
  { intros app1 earlier outcome Hlog.
    destruct (update_aircraft_table_run_cases t_table app1) as [-> | ->];
      [|done]. simpl and_then.
    destruct (update_alerts_run_cases (update_aircraft_table t_table app1))
      as [-> | ->]; [|done]. simpl and_then.
    destruct (log_message_run_cases t_done [Lit "Data refreshed."]
                (update_alerts (update_aircraft_table t_table app1)))
      as [-> | ->]; [|done].
    split; [|reflexivity].
    set (app' := log_message t_done [Lit "Data refreshed."]
                   (update_alerts (update_aircraft_table t_table app1))).
    assert (Hcount : length (table app')
                     = length (filtered_by
                                 (deref (objs app1) (active_filters (filter_panel app1)))
                                 (aircraft_data app1))).
    { change (table app') with (table (update_aircraft_table t_table app1)).
      by rewrite update_aircraft_table_rows, length_fmap, filtered_by_filter. }
    assert (Hall : debug_log app'
                   = add_messages
                       (earlier ++ [outcome;
                                    (t_table, [Lit "Displaying ";
                                               Count (length (table app'));
                                               Lit " aircraft"]);
                                    (t_done, [Lit "Data refreshed."])])
                       (debug_log app)).
    { rewrite Hcount. unfold add_messages. rewrite fold_left_app. simpl fold_left.
      change (debug_log app')
        with (add_message t_done [Lit "Data refreshed."]
                (add_message t_table
                   [Lit "Displaying ";
                    Count (length (filtered_by
                                     (deref (objs app1) (active_filters (filter_panel app1)))
                                     (aircraft_data app1)));
                    Lit " aircraft"]
                   (debug_log app1))).
      rewrite Hlog. unfold add_messages. rewrite fold_left_app. reflexivity. }
    rewrite Hall.
    destruct (add_messages_newest earlier
                [outcome;
                 (t_table, [Lit "Displaying "; Count (length (table app'));
                            Lit " aircraft"]);
                 (t_done, [Lit "Data refreshed."])]
                (debug_log app) Hpos) as [older Holder]; [simpl; lia | done |].
    exists older. exact Holder. }
  unfold fetch_and_update_run, fetch_aircraft_data_run.
  destruct (fetched ≫= read_feed) as [[new_aircraft count]|e] eqn:Hfetch.
  - destruct (log_message_run_cases t_fetched
                [Lit "Fetched "; Count count; Lit " military aircraft"]
                (set_aircraft_data new_aircraft app)) as [-> | ->].
    + cbv beta iota zeta. simpl and_then.
      pose proof (Hviews (log_message t_fetched
                            [Lit "Fetched "; Count count; Lit " military aircraft"]
                            (set_aircraft_data new_aircraft app))
                    []
                    (t_fetched,
                     [Lit "Fetched "; Count count; Lit " military aircraft"])
                    eq_refl) as Hv.
      destruct (and_then _ _) as [app'|err app']; [|exact Hv].
      destruct Hv as [[older Hlines] Hdata].
      exists older, (t_fetched,
                     [Lit "Fetched "; Count count; Lit " military aircraft"]).
      split; [exact Hlines|]. left. split; [reflexivity | exact Hdata].
    + cbv beta iota zeta.
      destruct (log_message_run_cases t_error
                  [Lit "API Error: "; ExnText MarkupError]
                  (log_message t_fetched
                     [Lit "Fetched "; Count count; Lit " military aircraft"]
                     (set_aircraft_data new_aircraft app))) as [-> | ->];
        [|done].
      simpl and_then.
      pose proof (Hviews (set_aircraft_data []
                            (log_message t_error
                               [Lit "API Error: "; ExnText MarkupError]
                               (log_message t_fetched
                                  [Lit "Fetched "; Count count;
                                   Lit " military aircraft"]
                                  (set_aircraft_data new_aircraft app))))
                    [(t_fetched,
                      [Lit "Fetched "; Count count; Lit " military aircraft"])]
                    (t_error, [Lit "API Error: "; ExnText MarkupError])
                    eq_refl) as Hv.
      destruct (and_then _ _) as [app'|err app']; [|exact Hv].
      destruct Hv as [[older Hlines] Hdata].
      exists older, (t_error, [Lit "API Error: "; ExnText MarkupError]).
      split; [exact Hlines|]. right. split; [reflexivity | exact Hdata].
  - cbv beta iota zeta.
    destruct (log_message_run_cases t_error [Lit "API Error: "; ExnText e] app)
      as [-> | ->]; [|done].
    simpl and_then.
    pose proof (Hviews (set_aircraft_data []
                          (log_message t_error [Lit "API Error: "; ExnText e] app))
                  [] (t_error, [Lit "API Error: "; ExnText e]) eq_refl) as Hv.
    destruct (and_then _ _) as [app'|err app']; [|exact Hv].
    destruct Hv as [[older Hlines] Hdata].
    exists older, (t_error, [Lit "API Error: "; ExnText e]).
    split; [exact Hlines|]. split; [reflexivity | exact Hdata].
Qed.

End RaisingCalls.

(** ** A whole refresh *)

Section RefreshProperties.
Context `{PyRuntime}.



End RefreshProperties.

(** ** Concrete runs *)

Section ConcreteRuns.
#[local] Existing Instance ascii_runtime.

(** X3, witness: "fa18c" starts with the declared prefix "FA18". *)
Lemma declared_prefix_classifies_witness :
  In ("FA18", "fighter") TYPE_TO_CATEGORY
  /\ "FA18" <> "H60" /\ "fa18c" <> ""
  /\ is_prefix "FA18" (upper "fa18c")
  /\ map_type_to_category (Some "fa18c") = "fighter".
Proof.
  assert (H1 : In ("FA18", "fighter") TYPE_TO_CATEGORY)
    by (do 6 right; left; reflexivity).
  assert (H2 : "FA18" <> "H60") by discriminate.
  assert (H3 : "fa18c" <> "") by discriminate.
  assert (H4 : is_prefix "FA18" (upper "fa18c")) by (exists "C"; reflexivity).
  exact (conj H1 (conj H2 (conj H3 (conj H4
           (declared_prefix_classifies "FA18" "fighter" "fa18c" H1 H2 H3 H4))))).
Defined.

(** X4, witness: the code "h60". *)
Lemma h60_codes_are_bombers_witness :
  "h60" <> "" /\ is_prefix "H60" (upper "h60")
  /\ map_type_to_category (Some "h60") = "bomber"
  /\ map_type_to_category (Some "h60") <> "helicopter".
Proof.
  assert (H1 : "h60" <> "") by discriminate.
  assert (H2 : is_prefix "H60" (upper "h60")) by (exists ""; reflexivity).
  exact (conj H1 (conj H2 (h60_codes_are_bombers "h60" H1 H2))).
Defined.

(** X6, witness: unticking "Tankers / Refuelers" in the initial panel. *)
Lemma checkbox_toggles_its_category_witness :
  let item := ("tanker", "Tankers / Refuelers") in
  let a := active_filters initial_panel in
  let objs' := (on_checkbox_changed (cb_id (checkbox_for item)) false
                  initial_panel initial_store).1 in
  In item CATEGORIES
  /\ (fst item ∈ deref objs' a <-> false = true)
  /\ ("fighter" <> fst item ->
      ("fighter" ∈ deref objs' a <-> "fighter" ∈ deref initial_store a))
  /\ (7 <> a -> objs' !! 7 = initial_store !! 7).
Proof.
  assert (H1 : In ("tanker", "Tankers / Refuelers") CATEGORIES)
    by (do 2 right; left; reflexivity).
  exact (conj H1
           (checkbox_toggles_its_category ("tanker", "Tankers / Refuelers") false
              initial_panel initial_store "fighter" 7 H1)).
Defined.

(** X7, witness: in the initial panel "tanker" is active, and unticking
    then ticking it restores the set; once unticked it is inactive, and
    ticking it twice gives what ticking it once gives. *)
Lemma toggle_round_trip_witness :
  let a := active_filters initial_panel in
  let change v o := (on_checkbox_changed "filter_tanker" v initial_panel o).1 in
  let unticked := change false initial_store in
  remove_all "filter_" 0 "filter_tanker" ∈ deref initial_store a
  /\ deref (change true (change false initial_store)) a = deref initial_store a
  /\ (remove_all "filter_" 0 "filter_tanker" ∉ deref unticked a)
  /\ deref (change true (change true unticked)) a = deref (change true unticked) a.
Proof.
  assert (H1 : remove_all "filter_" 0 "filter_tanker"
               ∈ deref initial_store (active_filters initial_panel))
    by (apply (bool_decide_unpack _); vm_compute; exact I).
  assert (H2 : remove_all "filter_" 0 "filter_tanker"
               ∉ deref (on_checkbox_changed "filter_tanker" false
                          initial_panel initial_store).1
                   (active_filters initial_panel)).
  { intros Hin. apply (bool_decide_pack _) in Hin. vm_compute in Hin. exact Hin. }
  exact (conj H1
           (conj (proj1 (toggle_round_trip "filter_tanker" true
                           initial_panel initial_store) H1)
              (conj H2
                 (proj2 (toggle_round_trip "filter_tanker" true initial_panel
                           (on_checkbox_changed "filter_tanker" false
                              initial_panel initial_store).1))))).
Defined.



(** X10, witness: the entry with a type, an altitude and nothing else. *)
Lemma build_aircraft_fields_witness :
  build_aircraft (VDict entry_anonymous) = Ok record_anonymous
  /\ aircraft_type record_anonymous <> ""
  /\ truthy (owner record_anonymous) = true
  /\ In (category record_anonymous) (map fst CATEGORIES)
  /\ aircraft_type record_anonymous = "f16"
  /\ owner record_anonymous = VStr "Unknown".
Proof.
  assert (H1 : build_aircraft (VDict entry_anonymous) = Ok record_anonymous)
    by reflexivity.
  destruct (build_aircraft_fields entry_anonymous record_anonymous H1)
    as (Htype & Howner & Hcat & _ & Hspelled & Hdefault & _).
  assert (H2 : "f16" <> "") by discriminate.
  exact (conj H1 (conj Htype (conj Howner (conj Hcat
           (conj (Hspelled "f16" eq_refl H2) (Hdefault eq_refl)))))).
Defined.

(** X11, witness: the altitude 30000. *)
Lemma nonnegative_integers_stay_nonnegative_witness :
  build_aircraft (VDict entry_anonymous) = Ok record_anonymous
  /\ (0 <= 30000)%Z
  /\ float_ltb (altitude record_anonymous) float_zero = false.
Proof.
  assert (H1 : build_aircraft (VDict entry_anonymous) = Ok record_anonymous)
    by reflexivity.
  assert (H2 : (0 <= 30000)%Z) by lia.
  destruct (nonnegative_integers_stay_nonnegative entry_anonymous
              record_anonymous 30000 H1 H2) as (Halt & _).
  exact (conj H1 (conj H2 (Halt eq_refl))).
Defined.

(** X14, witness: one fighter in the snapshot, every filter on. *)
Lemma displayed_count_matches_table_witness :
  let app := set_aircraft_data [record_anonymous] MilitaryMonitor_init in
  0 < max_lines (debug_log app)
  /\ last (lines (debug_log (update_aircraft_table "12:00:00" app)))
     = Some (log_line ("12:00:00",
               [Lit "Displaying ";
                Count (length (table (update_aircraft_table "12:00:00" app)));
                Lit " aircraft"])).
Proof.
  assert (H1 : 0 < max_lines (debug_log
                 (set_aircraft_data [record_anonymous] MilitaryMonitor_init)))
    by (simpl; lia).
  exact (conj H1
           (displayed_count_matches_table "12:00:00"
              (set_aircraft_data [record_anonymous] MilitaryMonitor_init) H1)).
Defined.

(** X16, witness: a refresh whose request timed out, on the samples'
    markup check. *)
Lemma refresh_logs_three_lines_witness :
  let fetched := Raise (RequestError "timed out") in
  let refreshed :=
    @fetch_and_update_run ascii_runtime plain_text_markup
      "12:00:00" "12:00:00" "12:00:01" "12:00:02" fetched MilitaryMonitor_init in
  3 <= max_lines (debug_log MilitaryMonitor_init)
  /\ length (lines (debug_log MilitaryMonitor_init))
     <= max_lines (debug_log MilitaryMonitor_init)
  /\ (exists app', refreshed = Done app')
  /\ match refreshed with
     | Done app' =>
         exists older outcome,
           lines (debug_log app')
           = older ++ [log_line outcome;
                       log_line ("12:00:01",
                         [Lit "Displaying "; Count (length (table app'));
                          Lit " aircraft"]);
                       log_line ("12:00:02", [Lit "Data refreshed."])]
           /\ match fetched ≫= read_feed with
              | Ok (new_aircraft, count) =>
                  (outcome = ("12:00:00",
                              [Lit "Fetched "; Count count;
                               Lit " military aircraft"])
                   /\ aircraft_data app' = new_aircraft)
                  \/ (outcome = ("12:00:00",
                                 [Lit "API Error: "; ExnText MarkupError])
                      /\ aircraft_data app' = [])
              | Raise e =>
                  outcome = ("12:00:00", [Lit "API Error: "; ExnText e])
                  /\ aircraft_data app' = []
              end
     | Raised err app' => err = MarkupError
     end.
Proof.
  assert (H1 : 3 <= max_lines (debug_log MilitaryMonitor_init)) by (simpl; lia).
  assert (H2 : length (lines (debug_log MilitaryMonitor_init))
               <= max_lines (debug_log MilitaryMonitor_init)) by (simpl; lia).
  assert (H3 : exists app',
            @fetch_and_update_run ascii_runtime plain_text_markup
              "12:00:00" "12:00:00" "12:00:01" "12:00:02"
              (Raise (RequestError "timed out")) MilitaryMonitor_init
            = Done app').
  { eexists. vm_compute. reflexivity. }
  exact (conj H1 (conj H2 (conj H3
           (@refresh_logs_three_lines plain_text_markup ascii_runtime
              "12:00:00" "12:00:00" "12:00:01" "12:00:02"
              (Raise (RequestError "timed out")) MilitaryMonitor_init H1 H2)))).
Defined.


End ConcreteRuns.
